(** * groq_transcribe: validation, transcription request and export

    Shallow embedding of [src/groq_transcribe/transcriber.py],
    [src/groq_transcribe/utils.py] and the [transcribe_cli] command of
    [src/groq_transcribe/cli.py].

    - Python [str] values are modelled by [string] (one [ascii] per code
      point below 256) for paths, formats and messages, and by [list Z]
      (code points) for the string values of JSON documents.
    - Python floats computed from sizes and durations are modelled as exact
      rationals [Q]; the size in MB is exact in binary64 as well (a division
      by a power of two).  JSON floats are carried as their binary64 bit
      pattern [Z].
    - The outside world (filesystem, audio libraries, HTTP transport) is an
      oracle record [world]; the observable effects of a call form a trace
      of [event]s; exceptions are the [Err] branch of [result].
    - The five [print] calls of [transcribe] between the opening of the
      upload and its [try] may raise ([world.w_print]); the other [print]
      calls write diagnostics and are taken to succeed.  The [click.echo]
      lines of the CLI are modelled as output events.
    - [open(path, 'w')] may raise ([world.w_open_write]). *)

From Stdlib Require Import ZArith QArith String Ascii List Bool Lia.
Import ListNotations.

Set Warnings "-register-all".
Local Open Scope string_scope.
Local Open Scope Z_scope.

(** ** Python strings and paths *)

Definition dq : ascii := "034"%char.
Definition bslash : ascii := "092"%char.

Definition str_in (x : string) (l : list string) : bool :=
  existsb (String.eqb x) l.

(** [str.rfind] of a single character: last index, or -1. *)
Fixpoint rfind_aux (c : ascii) (s : string) (i acc : Z) : Z :=
  match s with
  | EmptyString => acc
  | String a s' => rfind_aux c s' (i + 1) (if Ascii.eqb a c then i else acc)
  end.

Definition rfind (c : ascii) (s : string) : Z := rfind_aux c s 0 (-1).

(** [posixpath.splitext(p)[1]] (genericpath._splitext with sep '/',
    extsep '.'): the extension is [p[dotIndex:]] when the last dot lies in
    the last path component and that component has a character other than
    '.' before it. *)
Definition splitext_ext (p : string) : string :=
  let sepIndex := rfind "/"%char p in
  let dotIndex := rfind "."%char p in
  if sepIndex <? dotIndex then
    let filename_prefix :=
      substring (Z.to_nat (sepIndex + 1)) (Z.to_nat (dotIndex - (sepIndex + 1))) p in
    if existsb (fun a => negb (Ascii.eqb a "."%char)) (list_ascii_of_string filename_prefix)
    then substring (Z.to_nat dotIndex) (String.length p - Z.to_nat dotIndex) p
    else EmptyString
  else EmptyString.

(** [os.path.basename(p)] = [p[p.rfind('/') + 1:]] *)
Definition basename (p : string) : string :=
  let i := Z.to_nat (rfind "/"%char p + 1) in
  substring i (String.length p - i) p.

(** [str.lower] on code points below 256: A-Z and the Latin-1 capitals
    (0xC0-0xDE without 0xD7) move up by 0x20. *)
Definition py_lower_char (a : ascii) : ascii :=
  let n := nat_of_ascii a in
  if ((65 <=? n) && (n <=? 90))%nat
     || (((192 <=? n) && (n <=? 222)) && negb (n =? 215))%nat
  then ascii_of_nat (n + 32) else a.

Fixpoint py_lower (s : string) : string :=
  match s with
  | EmptyString => EmptyString
  | String a s' => String (py_lower_char a) (py_lower s')
  end.

(** Code points of an ASCII/Latin-1 string, and back. *)
Definition pystr (s : string) : list Z :=
  map (fun a => Z.of_nat (nat_of_ascii a)) (list_ascii_of_string s).


(** Python [a < b] on the numbers of this module. *)
Definition q_lt (x y : Q) : bool := negb (Qle_bool y x).

(** ** JSON documents (values produced by [json.loads] / [response.json()]) *)

Inductive jvalue : Type :=
| JNull
| JBool (b : bool)
| JInt (z : Z)
| JFloat (bits : Z)                       (** binary64 bit pattern *)
| JStr (s : list Z)                       (** code points *)
| JArr (xs : list jvalue)
| JObj (kvs : list (list Z * jvalue)).    (** dict in insertion order *)

(** [dict.get(k, default)]; keys of a Python dict are distinct, so the
    first binding is the only one. *)
Fixpoint dict_get (d : list (list Z * jvalue)) (k : list Z) (default : jvalue) : jvalue :=
  match d with
  | [] => default
  | (k', v) :: d' => if list_eq_dec Z.eq_dec k k' then v else dict_get d' k default
  end.

(** ** The JSON encoder: [json.dumps(o, indent=2)]

    With an [indent], [json.dumps] uses the pure-Python
    [_make_iterencode] with item separator "," and key separator ": ";
    strings go through [py_encode_basestring_ascii] (ensure_ascii). *)

Definition hexdig (n : Z) : ascii :=
  ascii_of_nat (Z.to_nat (if n <? 10 then 48 + n else 87 + n)).

(** ['{0:04x}'.format(n)] for [0 <= n < 0x10000]. *)
Definition hex4 (n : Z) : string :=
  String (hexdig (n / 4096 mod 16)) (String (hexdig (n / 256 mod 16))
    (String (hexdig (n / 16 mod 16)) (String (hexdig (n mod 16)) EmptyString))).

Definition u_escape (n : Z) : string := String bslash (String "u"%char (hex4 n)).

(** The replacement of one code point in [ESCAPE_ASCII.sub(replace, s)]:
    [ESCAPE_DCT] for backslash, quote and the short control escapes,
    literal for ' '..'~', otherwise [\uXXXX] or a surrogate pair. *)
Definition encode_char (c : Z) : string :=
  if c =? 34 then String bslash (String dq EmptyString)
  else if c =? 92 then String bslash (String bslash EmptyString)
  else if c =? 8 then String bslash "b"
  else if c =? 12 then String bslash "f"
  else if c =? 10 then String bslash "n"
  else if c =? 13 then String bslash "r"
  else if c =? 9 then String bslash "t"
  else if (32 <=? c) && (c <=? 126) then String (ascii_of_nat (Z.to_nat c)) EmptyString
  else if c <? 65536 then u_escape c
  else
    let n := c - 65536 in
    u_escape (Z.lor 55296 (Z.land (Z.shiftr n 10) 1023))
    ++ u_escape (Z.lor 56320 (Z.land n 1023)).

Fixpoint encode_chars (s : list Z) : string :=
  match s with
  | [] => EmptyString
  | c :: s' => encode_char c ++ encode_chars s'
  end.

Definition encode_basestring_ascii (s : list Z) : string :=
  String dq (encode_chars s ++ String dq EmptyString).

(** Decimal digits (most significant first) of [n >= 0]; [fuel] bounds
    the number of divisions. *)
Fixpoint dec_digits_aux (fuel : nat) (n : Z) (acc : list Z) : list Z :=
  match fuel with
  | O => n :: acc
  | S f => if n <? 10 then n :: acc else dec_digits_aux f (n / 10) (n mod 10 :: acc)
  end.

Definition dec_digits (n : Z) : list Z := dec_digits_aux (Z.to_nat (Z.log2 n)) n [].

Definition digit_char (d : Z) : ascii := ascii_of_nat (Z.to_nat (48 + d)).

Fixpoint digits_string (ds : list Z) : string :=
  match ds with
  | [] => EmptyString
  | d :: ds' => String (digit_char d) (digits_string ds')
  end.

(** [int.__repr__] on an int of at most [INT_MAX_STR_DIGITS] digits; the
    ValueError above the limit is raised by [py_json_dumps] through
    [ints_fit]. *)
Definition int_repr (z : Z) : string :=
  if z <? 0 then String "-"%char (digits_string (dec_digits (- z)))
  else digits_string (dec_digits z).

(** binary64 special values. *)
Definition posinf_bits : Z := 9218868437227405312.      (* 0x7ff0000000000000 *)
Definition neginf_bits : Z := 18442240474082181120.     (* 0xfff0000000000000 *)

Definition is_nan_bits (b : Z) : bool :=
  (Z.land (Z.shiftr b 52) 2047 =? 2047) && negb (Z.land b 4503599627370495 =? 0).

Definition spaces (n : nat) : string := string_of_list_ascii (repeat " "%char (2 * n)).

(** ['\n' + _indent * level] *)
Definition newline_indent (lvl : nat) : string := String "010"%char (spaces lvl).

Section Encoder.

(** [float.__repr__] of a finite binary64 value, given by its bits. *)
Variable float_repr : Z -> string.

(** [floatstr] of [_make_iterencode] (allow_nan=True). *)
Definition floatstr (b : Z) : string :=
  if is_nan_bits b then "NaN"
  else if b =? posinf_bits then "Infinity"
  else if b =? neginf_bits then "-Infinity"
  else float_repr b.

Fixpoint encode (lvl : nat) (v : jvalue) : string :=
  match v with
  | JNull => "null"
  | JBool true => "true"
  | JBool false => "false"
  | JInt z => int_repr z
  | JFloat b => floatstr b
  | JStr s => encode_basestring_ascii s
  | JArr [] => "[]"
  | JArr (x :: xs) =>
      "[" ++ newline_indent (S lvl) ++ encode (S lvl) x
      ++ (fix items (l : list jvalue) : string :=
            match l with
            | [] => EmptyString
            | y :: l' => "," ++ newline_indent (S lvl) ++ encode (S lvl) y ++ items l'
            end) xs
      ++ newline_indent lvl ++ "]"
  | JObj [] => "{}"
  | JObj ((k, x) :: kvs) =>
      "{" ++ newline_indent (S lvl) ++ encode_basestring_ascii k ++ ": " ++ encode (S lvl) x
      ++ (fix items (l : list (list Z * jvalue)) : string :=
            match l with
            | [] => EmptyString
            | (k', y) :: l' =>
                "," ++ newline_indent (S lvl) ++ encode_basestring_ascii k' ++ ": "
                ++ encode (S lvl) y ++ items l'
            end) kvs
      ++ newline_indent lvl ++ "}"
  end.

(** [json.dumps(o, indent=2)] *)
Definition json_dumps (v : jvalue) : string := encode 0 v.

End Encoder.

(** ** The JSON decoder: [json.loads(s)]

    [json.loads] runs [JSONDecoder.decode] with the C scanner of [_json]
    ([scan_once_unicode], [scanstring_unicode], [_parse_array_unicode],
    [_parse_object_unicode], [_match_number_unicode]), strict mode.  The
    input is a [string]; each [ascii] is one code point.  Python's
    recursion limits are not modelled. *)


(** [IS_WHITESPACE] *)
Definition is_ws (a : ascii) : bool :=
  Ascii.eqb a " " || Ascii.eqb a "009"%char || Ascii.eqb a "010"%char || Ascii.eqb a "013"%char.

Fixpoint skip_ws (s : string) : string :=
  match s with
  | String a s' => if is_ws a then skip_ws s' else s
  | EmptyString => EmptyString
  end.


















Definition starts_with (p s : string) : bool := String.prefix p s.


Section Decoder.

(** [PyFloat_FromString] on a number lexeme, as binary64 bits. *)
Variable py_float : string -> Z.



End Decoder.

(** ** Documents that [json.loads(json.dumps(.))] reproduces *)







Section FloatText.

Variable float_repr : Z -> string.
Variable py_float : string -> Z.



(** The items after the first one, as [_iterencode_list] and
    [_iterencode_dict] print them. *)
Fixpoint arr_items (lvl : nat) (l : list jvalue) : string :=
  match l with
  | [] => EmptyString
  | y :: l' => "," ++ newline_indent (S lvl) ++ encode float_repr (S lvl) y ++ arr_items lvl l'
  end.

Fixpoint obj_items (lvl : nat) (l : list (list Z * jvalue)) : string :=
  match l with
  | [] => EmptyString
  | (k', y) :: l' =>
      "," ++ newline_indent (S lvl) ++ encode_basestring_ascii k' ++ ": "
      ++ encode float_repr (S lvl) y ++ obj_items lvl l'
  end.

End FloatText.



(** ** Measures and predicates of the round-trip proof *)



(** One step of reading a decimal digit string. *)
Definition dstep (a d : Z) : Z := a * 10 + d.
Definition is_dig (d : Z) : Prop := 0 <= d <= 9.





(** ** Effects: trace of observable events, Python exceptions *)

Inductive probe : Type := ProbeSoundfile | ProbeMutagen | ProbeWave.

(** The multipart POST built by [transcribe]. *)
Record request : Type := {
  rq_url : string;
  rq_authorization : string;
  rq_payload : list (string * string);
  rq_filename : string;
  rq_content_type : string
}.

Inductive event : Type :=
| EvProbe (p : probe)                  (** an audio library opens the file *)
| EvOpenUpload (path : string)         (** [open(audio_path, "rb")] *)
| EvCloseUpload                        (** [files["file"][1].close()] *)
| EvPost (rq : request)                (** [requests.post(...)] *)
| EvOpenWrite (path : string)          (** [open(output_path, 'w')] *)
| EvWrite (path : string) (s : list Z).  (** [f.write(content)] *)

(** Pieces of an f-string message: literal text, [str(x)] and [f"{x:.2f}"]. *)
Inductive piece : Type :=
| PLit (s : string)
| PNum (q : Q)
| PFixed2 (q : Q).

(** One constructor per [raise] site (or propagated library exception). *)
Inductive exc : Type :=
| FileNotFound (path : string)                       (** FileNotFoundError *)
| UnsupportedExtension (ext : string) (allowed : list string)  (** ValueError *)
| FileTooLarge (limit size : Q)                      (** ValueError *)
| FileTooShort (minimum length : Q)                  (** ValueError *)
| UnsupportedFormat (fmt : string)                   (** ValueError *)
| ApiError (status : Z) (body : string)              (** ValueError *)
| UnsupportedExportFormat (fmt : string)             (** ValueError *)
| OpenFailed (path : string)                         (** OSError from open *)
| TransportError                                     (** requests.RequestException *)
| TransportOtherError                                (** any other exception of requests.post *)
| MalformedResponse                                  (** JSONDecodeError of response.json() *)
| WriteTypeError                                     (** TypeError of f.write on a non-str *)
| OpenWriteFailed (path msg : string)                (** OSError from open(path, 'w') *)
| PrintFailed (msg : string)                         (** exception of print, e.g. UnicodeEncodeError *)
| IntTooLong                                         (** ValueError of int.__repr__ *)
| MissingApiKey                                      (** ValueError in __init__ *)
| UnsupportedModel (m : string).                     (** ValueError in __init__ *)

Definition message (e : exc) : list piece :=
  match e with
  | FileNotFound p => [PLit "Audio file not found: "; PLit p]
  | UnsupportedExtension ext allowed =>
      [PLit "Unsupported file type: "; PLit ext; PLit ". Supported types: ";
       PLit (String.concat ", " allowed)]
  | FileTooLarge limit size =>
      [PLit "Audio file exceeds "; PNum limit; PLit " MB limit. Current size: ";
       PFixed2 size; PLit " MB"]
  | FileTooShort minimum len =>
      [PLit "Audio file too short. Minimum length is "; PNum minimum;
       PLit " seconds. Current length: "; PFixed2 len; PLit " seconds"]
  | UnsupportedFormat _ =>
      [PLit "Unsupported response format. Choose from: json, verbose_json, text"]
  | ApiError status body =>
      [PLit "Transcription request failed: "; PNum (inject_Z status); PLit " - "; PLit body]
  | UnsupportedExportFormat fmt => [PLit "Unsupported export format: "; PLit fmt]
  | OpenWriteFailed _ msg => [PLit msg]
  | PrintFailed msg => [PLit msg]
  | IntTooLong =>
      [PLit "Exceeds the limit (4300 digits) for integer string conversion; use sys.set_int_max_str_digits() to increase the limit"]
  | _ => []
  end.

Inductive result (A : Type) : Type :=
| Ok (a : A)
| Err (e : exc).
Arguments Ok {A} a.
Arguments Err {A} e.

(** Writer (trace) and exception monad. *)
Definition M (A : Type) : Type := (list event * result A)%type.

Definition ret {A} (a : A) : M A := ([], Ok a).
Definition raise {A} (e : exc) : M A := ([], Err e).
Definition emit (ev : event) : M unit := ([ev], Ok tt).

Definition bind {A B} (m : M A) (f : A -> M B) : M B :=
  let '(t1, r) := m in
  match r with
  | Ok a => let '(t2, r2) := f a in (app t1 t2, r2)
  | Err e => (t1, Err e)
  end.

Notation "x <- m ;; k" := (bind m (fun x => k)) (at level 61, m at next level, right associativity).
Notation "m ;; k" := (bind m (fun _ => k)) (at level 61, right associativity).

(** [try: m finally: fin] where [fin] cannot raise. *)
Definition try_finally {A} (m : M A) (fin : M unit) : M A :=
  let '(t1, r) := m in (app t1 (fst fin), r).

(** ** The outside world *)

Record sf_info : Type := { sf_frames : Z; sf_samplerate : Z; sf_channels : Z }.

(** Result of [mutagen.File(path)]: raises, returns [None] or an object
    without [info], or returns [info] whose [length], [channels] and
    [sample_rate] attributes may be missing. *)
Inductive mutagen_result : Type :=
| MutagenRaises
| MutagenNoInfo
| MutagenInfo (length : option Q) (channels : option Z) (sample_rate : option Z).

Record wave_info : Type := { wv_nchannels : Z; wv_framerate : Z; wv_nframes : Z }.

(** Result of [requests.post]: an exception, or a response with its
    status code, text and the outcome of [response.json()]. *)
Inductive post_outcome : Type :=
| PostRequestException
| PostOtherException
| PostResponse (status : Z) (text : string) (json : option jvalue).

Record world : Type := {
  w_exists : string -> bool;                (** os.path.exists *)
  w_getsize : string -> Z;                  (** os.path.getsize, bytes *)
  w_soundfile : string -> option sf_info;   (** sf.SoundFile; None: raises *)
  w_mutagen : string -> mutagen_result;
  w_wave : string -> option wave_info;      (** wave.open; None: raises *)
  w_open : string -> bool;                  (** open(path, "rb") succeeds *)
  w_post : request -> post_outcome;
  w_open_write : string -> option string;   (** open(path, 'w'); Some msg: raises OSError(msg) *)
  w_print : string -> option string         (** print(line); Some msg: raises, str(e) = msg *)
}.

(** ** GroqTranscriber (transcriber.py) *)

Definition SUPPORTED_MODELS : list string :=
  ["whisper-large-v3-turbo"; "distil-whisper-large-v3-en"; "whisper-large-v3"].
Definition SUPPORTED_FORMATS : list string := ["json"; "verbose_json"; "text"].
Definition SUPPORTED_EXTENSIONS : list string :=
  [".mp3"; ".mp4"; ".mpeg"; ".mpga"; ".m4a"; ".wav"; ".webm"].
Definition MAX_FILE_SIZE_MB : Q := 25 # 1.
Definition MIN_FILE_LENGTH_SECONDS : Q := 1 # 100.
Definition MIN_BILLED_LENGTH_SECONDS : Q := 10 # 1.

Record transcriber : Type := { api_key : string; model : string; base_url : string }.

(** [GroqTranscriber.__init__] (the [GROQ_API_KEY] lookup is the caller's
    [api_key] argument here). *)
Definition new_transcriber (key : string) (m : string) (url : string) : result transcriber :=
  if String.eqb key "" then Err MissingApiKey
  else if negb (str_in m SUPPORTED_MODELS) then Err (UnsupportedModel m)
  else Ok {| api_key := key; model := m; base_url := url |}.

(** The [audio_details] dict. *)
Record details : Type := { duration : Q; channels : Z; sample_rate : Z; file_size_mb : Q }.

Definition set_duration (d : details) (x : Q) : details :=
  {| duration := x; channels := channels d; sample_rate := sample_rate d; file_size_mb := file_size_mb d |}.
Definition set_channels (d : details) (x : Z) : details :=
  {| duration := duration d; channels := x; sample_rate := sample_rate d; file_size_mb := file_size_mb d |}.
Definition set_sample_rate (d : details) (x : Z) : details :=
  {| duration := duration d; channels := channels d; sample_rate := x; file_size_mb := file_size_mb d |}.

(** [os.path.getsize(audio_path) / (1024 * 1024)] *)
Definition size_mb (bytes : Z) : Q := inject_Z bytes / inject_Z (1024 * 1024).

Definition default_details (size : Q) : details :=
  {| duration := 0; channels := 1; sample_rate := 0; file_size_mb := size |}.

(** A probing method either [return]s the dict or falls through to the
    next one; in both cases with the dict as it then is (the methods
    write into the shared [audio_details] dict). *)
Inductive probe_outcome : Type :=
| Returned (d : details)
| FellThrough (d : details).

Definition outcome_details (o : probe_outcome) : details :=
  match o with Returned d | FellThrough d => d end.

(** Method 1: [with sf.SoundFile(p) as f: duration = len(f) / f.samplerate; ...].
    A zero sample rate raises ZeroDivisionError before any write. *)
Definition method_soundfile (w : world) (path : string) (d : details) : M probe_outcome :=
  emit (EvProbe ProbeSoundfile) ;;
  match w_soundfile w path with
  | None => ret (FellThrough d)
  | Some i =>
      if sf_samplerate i =? 0 then ret (FellThrough d)
      else
        let d1 := set_duration d (inject_Z (sf_frames i) / inject_Z (sf_samplerate i)) in
        let d2 := set_channels d1 (sf_channels i) in
        ret (Returned (set_sample_rate d2 (sf_samplerate i)))
  end.

(** Method 2: [mutagen.File(p)]; [info.length] is read first, [channels]
    and [sample_rate] through [getattr] with defaults 1 and 0. *)
Definition method_mutagen (w : world) (path : string) (d : details) : M probe_outcome :=
  emit (EvProbe ProbeMutagen) ;;
  match w_mutagen w path with
  | MutagenRaises | MutagenNoInfo | MutagenInfo None _ _ => ret (FellThrough d)
  | MutagenInfo (Some len) ch sr =>
      let d1 := set_duration d len in
      let d2 := set_channels d1 (match ch with Some c => c | None => 1 end) in
      ret (Returned (set_sample_rate d2 (match sr with Some r => r | None => 0 end)))
  end.

(** Method 3: [wave.open(p, 'rb')]; channels and sample rate are written
    before [getnframes() / getframerate()], which raises ZeroDivisionError
    on a zero frame rate. *)
Definition method_wave (w : world) (path : string) (d : details) : M probe_outcome :=
  emit (EvProbe ProbeWave) ;;
  match w_wave w path with
  | None => ret (FellThrough d)
  | Some i =>
      let d1 := set_channels d (wv_nchannels i) in
      let d2 := set_sample_rate d1 (wv_framerate i) in
      if wv_framerate i =? 0 then ret (FellThrough d2)
      else ret (Returned (set_duration d2 (inject_Z (wv_nframes i) / inject_Z (wv_framerate i))))
  end.

(** The three methods in order; the WAV reader only for '.wav'. *)
Definition probe_chain (w : world) (path ext : string) (d : details) : M probe_outcome :=
  o1 <- method_soundfile w path d ;;
  match o1 with
  | Returned d1 => ret (Returned d1)
  | FellThrough d1 =>
      o2 <- method_mutagen w path d1 ;;
      match o2 with
      | Returned d2 => ret (Returned d2)
      | FellThrough d2 =>
          if String.eqb ext ".wav" then method_wave w path d2 else ret (FellThrough d2)
      end
  end.

(** Existence, extension and size checks shared (with their own
    parameters) by both validators. *)
Definition precheck (w : world) (path : string) (max_mb : Q) (exts : list string)
  : M (string * Q) :=
  if negb (w_exists w path) then raise (FileNotFound path)
  else
    let file_ext := py_lower (splitext_ext path) in
    if negb (str_in file_ext exts) then raise (UnsupportedExtension file_ext exts)
    else
      let sz := size_mb (w_getsize w path) in
      if q_lt max_mb sz then raise (FileTooLarge max_mb sz)
      else ret (file_ext, sz).

(** [GroqTranscriber._get_audio_details] *)
Definition get_audio_details (w : world) (path : string) : M details :=
  p <- precheck w path MAX_FILE_SIZE_MB SUPPORTED_EXTENSIONS ;;
  let '(file_ext, sz) := p in
  o <- probe_chain w path file_ext (default_details sz) ;;
  ret (outcome_details o).

(** [GroqTranscriber._validate_audio_file]; the two advisory checks only
    print. *)
Definition validate_audio_file_method (w : world) (path : string) : M unit :=
  d <- get_audio_details w path ;;
  if q_lt (duration d) MIN_FILE_LENGTH_SECONDS
  then raise (FileTooShort MIN_FILE_LENGTH_SECONDS (duration d))
  else ret tt.

(** [print(line)] at the five request-detail lines of [transcribe],
    which run after the upload is opened and before the [try] that
    closes it.  The other [print] calls of the module are taken to
    succeed. *)
Definition py_print (w : world) (line : string) : M unit :=
  match w_print w line with
  | None => ret tt
  | Some msg => raise (PrintFailed msg)
  end.

(** [s[:n]] *)
Definition py_head (n : nat) (s : string) : string := substring 0 n s.

(** [s[-n:]] for [n > 0]: the whole string when it is shorter. *)
Definition py_tail (n : nat) (s : string) : string :=
  substring (String.length s - n) n s.

(** The body of [GroqTranscriber.transcribe] after the file validation:
    format check, request construction, upload. *)
Definition send_request (w : world) (self : transcriber) (path fmt : string)
  (language : option string) : M jvalue :=
  if negb (str_in fmt SUPPORTED_FORMATS) then raise (UnsupportedFormat fmt)
  else
    let payload :=
      app [("model", model self); ("response_format", fmt)]
        (match language with
         | Some l => if String.eqb l "" then [] else [("language", l)]
         | None => []
         end) in
    let rq := {| rq_url := base_url self;
                 rq_authorization := "Bearer " ++ api_key self;
                 rq_payload := payload;
                 rq_filename := basename path;
                 rq_content_type := "audio/mpeg" |} in
    if negb (w_open w path) then raise (OpenFailed path)
    else
      emit (EvOpenUpload path) ;;
      py_print w "API Request Details:" ;;
      py_print w ("  URL: " ++ base_url self) ;;
      py_print w ("  Model: " ++ model self) ;;
      py_print w ("  Response Format: " ++ fmt) ;;
      py_print w ("  API Key: " ++ py_head 3 (api_key self) ++ "..." ++ py_tail 4 (api_key self)) ;;
      try_finally
        (emit (EvPost rq) ;;
         match w_post w rq with
         | PostRequestException => raise TransportError
         | PostOtherException => raise TransportOtherError
         | PostResponse status text js =>
             if negb (status =? 200) then raise (ApiError status text)
             else match js with
                  | Some v => ret v
                  | None => raise MalformedResponse
                  end
         end)
        (emit EvCloseUpload).

(** [GroqTranscriber.transcribe] *)
Definition transcribe (w : world) (self : transcriber) (path fmt : string)
  (language : option string) : M jvalue :=
  validate_audio_file_method w path ;;
  send_request w self path fmt language.

(** [GroqTranscriber.batch_transcribe]: the list comprehension stops at
    the first exception. *)
Fixpoint batch_transcribe (w : world) (self : transcriber) (paths : list string)
  (fmt : string) : M (list jvalue) :=
  match paths with
  | [] => ret []
  | p :: ps => r <- transcribe w self p fmt None ;; rs <- batch_transcribe w self ps fmt ;; ret (r :: rs)
  end.

(** ** utils.py *)

Definition DEFAULT_EXTENSIONS : list string :=
  [".mp3"; ".mp4"; ".mpeg"; ".mpga"; ".m4a"; ".wav"; ".webm"].

(** [validate_audio_file(audio_path, max_file_size_mb=25,
    min_file_length_seconds=0.01, supported_extensions=None)]: a method
    that succeeds returns at once; the minimum length is checked only
    after all methods fell through. *)
Definition validate_audio_file (w : world) (path : string) (max_mb min_len : Q)
  (supported : option (list string)) : M details :=
  let exts := match supported with Some l => l | None => DEFAULT_EXTENSIONS end in
  p <- precheck w path max_mb exts ;;
  let '(file_ext, sz) := p in
  o <- probe_chain w path file_ext (default_details sz) ;;
  match o with
  | Returned d => ret d
  | FellThrough d =>
      if q_lt (duration d) min_len then raise (FileTooShort min_len (duration d))
      else ret d
  end.

(** [sys.get_int_max_str_digits()] at its default. *)
Definition INT_MAX_STR_DIGITS : Z := 4300.

(** [int.__repr__(z)] succeeds: at most 4300 decimal digits. *)
Definition int_repr_fits (z : Z) : bool := Z.abs z <? 10 ^ INT_MAX_STR_DIGITS.

(** Every int of the value can be converted by [int.__repr__]. *)
Fixpoint ints_fit (v : jvalue) : bool :=
  match v with
  | JInt z => int_repr_fits z
  | JArr vs => (fix go (l : list jvalue) : bool :=
                  match l with [] => true | x :: r => ints_fit x && go r end) vs
  | JObj kvs => (fix go (l : list (list Z * jvalue)) : bool :=
                   match l with [] => true | (_, x) :: r => ints_fit x && go r end) kvs
  | _ => true
  end.

(** [json.dumps(v, indent=2, ensure_ascii=True)]: the pure-Python encoder
    joins the chunks of its generator before returning, so it either
    returns [json_dumps] or raises the ValueError of the first int over
    the limit. *)
Definition py_json_dumps (float_repr : Z -> string) (v : jvalue) : M string :=
  if ints_fit v then ret (json_dumps float_repr v) else raise IntTooLong.

(** [with open(output_path, 'w') as f: f.write(content)] *)
Definition write_file (w : world) (p : string) (content : jvalue) : M unit :=
  match w_open_write w p with
  | Some msg => raise (OpenWriteFailed p msg)
  | None =>
      emit (EvOpenWrite p) ;;
      match content with
      | JStr text => emit (EvWrite p text)
      | _ => raise WriteTypeError
      end
  end.

(** [export_transcription(transcription, output_format='json',
    output_path=None)]; the content is a [str] for 'json' and whatever
    [transcription.get('text', '')] holds for 'text'. *)
Definition export_transcription (w : world) (float_repr : Z -> string)
  (transcription : list (list Z * jvalue)) (output_format : string)
  (output_path : option string) : M jvalue :=
  content <-
  (if String.eqb output_format "json"
   then (s <- py_json_dumps float_repr (JObj transcription) ;; ret (JStr (pystr s)))
   else if String.eqb output_format "text"
   then ret (dict_get transcription (pystr "text") (JStr []))
   else raise (UnsupportedExportFormat output_format)) ;;
  match output_path with
  | Some p =>
      if String.eqb p "" then ret content
      else write_file w p content ;; ret content
  | None => ret content
  end.

(** [utils.detect_language(transcription)] *)
Definition detect_language (transcription : list (list Z * jvalue)) : jvalue :=
  dict_get transcription (pystr "language") (JStr (pystr "unknown")).

(** ** cli.py *)

(** [posixpath.splitext(p)[0]]: [p[:dotIndex]] in the cases where
    [splitext_ext] is [p[dotIndex:]], otherwise [p]. *)
Definition splitext_root (p : string) : string :=
  let sepIndex := rfind "/"%char p in
  let dotIndex := rfind "."%char p in
  if sepIndex <? dotIndex then
    let filename_prefix :=
      substring (Z.to_nat (sepIndex + 1)) (Z.to_nat (dotIndex - (sepIndex + 1))) p in
    if existsb (fun a => negb (Ascii.eqb a "."%char)) (list_ascii_of_string filename_prefix)
    then substring 0 (Z.to_nat dotIndex) p
    else p
  else p.

(** [p.endswith('/')] *)
Definition ends_with_slash (p : string) : bool :=
  (0 <=? rfind "/"%char p) && (Z.to_nat (rfind "/"%char p) + 1 =? String.length p)%nat.

(** [posixpath.join(a, b)] *)
Definition path_join (a b : string) : string :=
  if starts_with "/" b then b
  else if String.eqb a "" || ends_with_slash a then a ++ b
  else a ++ "/" ++ b.

(** What the CLI prints ([click.echo], [err=True] for standard error),
    the directories it creates, and the library events of the calls it
    makes. *)
Inductive cli_event : Type :=
| CEcho (err : bool) (msg : list piece)
| CMakedirs (path : string)
| CLib (ev : event).

(** How [transcribe_cli] ends: it returns, calls [sys.exit(code)], or
    [os.makedirs] raises (the OSError is not caught). *)
Inductive cli_result : Type :=
| CliReturned
| CliExit (code : Z)
| CliMakedirsError (path : string).

(** The environment of one CLI run: [os.getenv('GROQ_API_KEY')], the
    oracle of the library calls, [os.path.isdir] before the run, and
    whether [os.makedirs(p, exist_ok=True)] succeeds.  The run's own
    transcript files are not among its audio inputs. *)
Record cli_world : Type := {
  cw_env_key : option string;
  cw_lib : world;
  cw_isdir : string -> bool;
  cw_makedirs : string -> bool
}.

Definition DEFAULT_BASE_URL : string := "https://api.groq.com/openai/v1/audio/transcriptions".

Definition lib (t : list event) : list cli_event := map CLib t.

(** [type(v).__name__] of a value returned by [response.json()]. *)
Definition type_name (v : jvalue) : string :=
  match v with
  | JNull => "NoneType" | JBool _ => "bool" | JInt _ => "int" | JFloat _ => "float"
  | JStr _ => "str" | JArr _ => "list" | JObj _ => "dict"
  end.

(** [str(e)] of the ValueError raised by [GroqTranscriber.__init__]. *)
Definition init_message (e : exc) : list piece :=
  match e with
  | MissingApiKey => [PLit "Groq API key is required. Set GROQ_API_KEY environment variable."]
  | UnsupportedModel _ =>
      [PLit "Unsupported model. Choose from: "; PLit (String.concat ", " SUPPORTED_MODELS)]
  | _ => message e
  end.

(** [export_transcription(v, ...)] on any value [response.json()] may
    return: a dict goes through [export_transcription]; for any other
    value 'json' still dumps it, 'text' fails on [v.get] with an
    AttributeError ([None] here, raised before any effect). *)
Definition export_value (w : world) (float_repr : Z -> string) (v : jvalue)
  (output_format : string) (output_path : option string) : option (M jvalue) :=
  match v with
  | JObj kvs => Some (export_transcription w float_repr kvs output_format output_path)
  | _ =>
      if String.eqb output_format "json" then
        Some (s <- py_json_dumps float_repr v ;;
              let content := JStr (pystr s) in
              match output_path with
              | Some p =>
                  if String.eqb p "" then ret content
                  else write_file w p content ;; ret content
              | None => ret content
              end)
      else if String.eqb output_format "text" then None
      else Some (raise (UnsupportedExportFormat output_format))
  end.

(** A non-empty [output_path] option. *)
Definition truthy (o : option string) : option string :=
  match o with Some p => if String.eqb p "" then None else Some p | None => None end.

(** The [output_file] of one audio file. *)
Definition cli_output_file (isdir : string -> bool) (output_path : option string)
  (response_format audio_file : string) : string :=
  match truthy output_path with
  | Some p =>
      if isdir p then
        path_join p (splitext_root (basename audio_file) ++ "_transcript." ++ response_format)
      else p
  | None => splitext_root (basename audio_file) ++ "_transcript." ++ response_format
  end.

Definition error_processing (audio_file : string) (msg : list piece) : cli_event :=
  CEcho true (app [PLit "Error processing "; PLit audio_file; PLit ": "] msg).

Definition details_lines (audio_file : string) (d : details) : list cli_event :=
  [CEcho false [PLit "Audio File Details for "; PLit (basename audio_file); PLit ":"];
   CEcho false [PLit "  Duration: "; PFixed2 (duration d); PLit " seconds"];
   CEcho false [PLit "  Channels: "; PNum (inject_Z (channels d))];
   CEcho false [PLit "  Sample Rate: "; PNum (inject_Z (sample_rate d)); PLit " Hz"];
   CEcho false [PLit "  File Size: "; PFixed2 (file_size_mb d); PLit " MB"]].

(** One iteration of the loop over [audio_files]; every exception is
    caught and reported. *)
Definition process_file (w : world) (self : transcriber) (isdir : string -> bool)
  (float_repr : Z -> string) (output_path : option string) (response_format : string)
  (language : option string) (validate_only : bool) (audio_file : string) : list cli_event :=
  let '(t1, r1) := validate_audio_file w audio_file (25 # 1) (1 # 100) None in
  app (lib t1)
  (match r1 with
   | Err e => [error_processing audio_file (message e)]
   | Ok d =>
       app (details_lines audio_file d)
       (if validate_only then []
        else
          let '(t2, r2) := transcribe w self audio_file response_format language in
          app (lib t2)
          (match r2 with
           | Err e => [error_processing audio_file (message e)]
           | Ok v =>
               let output_file := cli_output_file isdir output_path response_format audio_file in
               match export_value w float_repr v response_format (Some output_file) with
               | None =>
                   [error_processing audio_file
                      [PLit "'"; PLit (type_name v); PLit "' object has no attribute 'get'"]]
               | Some (t3, r3) =>
                   app (lib t3)
                   (match r3 with
                    | Err e => [error_processing audio_file (message e)]
                    | Ok _ => [CEcho false [PLit "Transcription saved to "; PLit output_file]]
                    end)
               end
           end)
        )
   end).

(** The body of [transcribe_cli] once the key and the file list are
    checked: transcriber construction, then the loop. *)
Definition cli_loop (cw : cli_world) (float_repr : Z -> string) (key : string)
  (audio_files : list string) (output_path : option string) (response_format model : string)
  (language : option string) (validate_only : bool) (isdir : string -> bool)
  : list cli_event * cli_result :=
  match new_transcriber key model DEFAULT_BASE_URL with
  | Err e => ([CEcho true (PLit "Error initializing transcriber: " :: init_message e)], CliExit 1)
  | Ok self =>
      (flat_map (process_file (cw_lib cw) self isdir float_repr output_path response_format
                   language validate_only) audio_files, CliReturned)
  end.

(** [transcribe_cli(audio_files, output_path, response_format, model,
    language, validate_only)] *)
Definition transcribe_cli (cw : cli_world) (float_repr : Z -> string)
  (audio_files : list string) (output_path : option string) (response_format model : string)
  (language : option string) (validate_only : bool) : list cli_event * cli_result :=
  let no_key :=
    ([CEcho true [PLit "Error: GROQ_API_KEY not found. Set it in .env or as an environment variable."]],
     CliExit 1) in
  match cw_env_key cw with
  | None => no_key
  | Some key =>
      if String.eqb key "" then no_key
      else
        match audio_files with
        | [] => ([CEcho true [PLit "Error: No audio files provided."]], CliExit 1)
        | _ =>
            match truthy output_path with
            | Some p =>
                if (1 <? length audio_files)%nat then
                  if cw_makedirs cw p then
                    let '(t, r) := cli_loop cw float_repr key audio_files output_path
                                     response_format model language validate_only
                                     (fun q => String.eqb q p || cw_isdir cw q) in
                    (CMakedirs p :: t, r)
                  else ([], CliMakedirsError p)
                else cli_loop cw float_repr key audio_files output_path response_format model
                       language validate_only (cw_isdir cw)
            | None => cli_loop cw float_repr key audio_files output_path response_format model
                        language validate_only (cw_isdir cw)
            end
        end
  end.

(** ** Predicates and measures of the further properties *)

(** Every character is ASCII (below 128). *)
Definition is_ascii_string (s : string) : bool :=
  forallb (fun a => (nat_of_ascii a <? 128)%nat) (list_ascii_of_string s).

(** A [requests.post] event. *)
Definition is_post_ev (e : event) : bool :=
  match e with EvPost _ => true | _ => false end.

(** The number of requests posted in a trace. *)
Definition post_count (t : list event) : nat := length (filter is_post_ev t).

(** The file an event opens for writing or writes to. *)
Definition write_path (ev : event) : option string :=
  match ev with EvOpenWrite p => Some p | EvWrite p _ => Some p | _ => None end.

(** [c in s] *)
Fixpoint has_char (c : ascii) (s : string) : bool :=
  match s with
  | EmptyString => false
  | String a s' => Ascii.eqb a c || has_char c s'
  end.

(** [os.path.isdir] as the loop of [transcribe_cli] sees it: [makedirs]
    has made the output path a directory when there are several files. *)
Definition cli_isdir (cw : cli_world) (output_path : option string) (audio_files : list string)
  : string -> bool :=
  match truthy output_path with
  | Some p => if (1 <? length audio_files)%nat then fun q => String.eqb q p || cw_isdir cw q
              else cw_isdir cw
  | None => cw_isdir cw
  end.

(** ** Concrete worlds *)

(** Nothing exists. *)
Definition empty_world : world := {|
  w_exists := fun _ => false;
  w_getsize := fun _ => 0;
  w_soundfile := fun _ => None;
  w_mutagen := fun _ => MutagenRaises;
  w_wave := fun _ => None;
  w_open := fun _ => false;
  w_post := fun _ => PostRequestException;
  w_open_write := fun _ => None;
  w_print := fun _ => None
|}.

(** A 30 MB MP3 ("talk.mp3"), a 5 s mono 16 kHz WAV ("clip.wav") and a
    text file ("notes.txt");
    the server answers 200 with a small JSON document. *)
Definition sample_world : world := {|
  w_exists := fun p => str_in p ["talk.mp3"; "clip.wav"; "notes.txt"];
  w_getsize := fun p => if String.eqb p "talk.mp3" then 30 * 1048576 else 200000;
  w_soundfile := fun p =>
    if String.eqb p "clip.wav"
    then Some {| sf_frames := 80000; sf_samplerate := 16000; sf_channels := 1 |} else None;
  w_mutagen := fun _ => MutagenRaises;
  w_wave := fun _ => None;
  w_open := fun _ => true;
  w_post := fun _ => PostResponse 200 "{}" (Some (JObj [(pystr "text", JStr (pystr "hello"))]));
  w_open_write := fun _ => None;
  w_print := fun _ => None
|}.

(** A header-only WAV ("silence.wav"): the soundfile reader opens it and
    reports 0 frames at 16 kHz. *)
Definition silent_world : world := {|
  w_exists := fun p => String.eqb p "silence.wav";
  w_getsize := fun _ => 44;
  w_soundfile := fun _ => Some {| sf_frames := 0; sf_samplerate := 16000; sf_channels := 1 |};
  w_mutagen := fun _ => MutagenRaises;
  w_wave := fun _ => None;
  w_open := fun _ => true;
  w_post := fun _ => PostRequestException;
  w_open_write := fun _ => None;
  w_print := fun _ => None
|}.

(** A WAV ("tone.wav") on which the soundfile reader and mutagen raise and
    whose header, as read by [wave.open], declares 2 channels and a frame
    rate of 0. *)
Definition zero_rate_world : world := {|
  w_exists := fun p => String.eqb p "tone.wav";
  w_getsize := fun _ => 1000;
  w_soundfile := fun _ => None;
  w_mutagen := fun _ => MutagenRaises;
  w_wave := fun _ => Some {| wv_nchannels := 2; wv_framerate := 0; wv_nframes := 100 |};
  w_open := fun _ => true;
  w_post := fun _ => PostRequestException;
  w_open_write := fun _ => None;
  w_print := fun _ => None
|}.

Definition sample_transcriber : transcriber :=
  {| api_key := "gsk_test_key_0000"; model := "whisper-large-v3";
     base_url := "https://api.groq.com/openai/v1/audio/transcriptions" |}.

(** The request [transcribe] builds for "clip.wav" in JSON format. *)
Definition clip_request : request := {|
  rq_url := "https://api.groq.com/openai/v1/audio/transcriptions";
  rq_authorization := "Bearer gsk_test_key_0000";
  rq_payload := [("model", "whisper-large-v3"); ("response_format", "json")];
  rq_filename := "clip.wav";
  rq_content_type := "audio/mpeg"
|}.

Definition sample_result : list (list Z * jvalue) :=
  [(pystr "text", JStr (pystr "hello")); (pystr "language", JStr (pystr "en"))].

(** A [repr]/[float] pair that agrees with CPython on 5.0 and 0.0. *)
Definition sample_float_repr (b : Z) : string :=
  if b =? 4617315517961601024 then "5.0" else "0.0".

(** A verbose result with a float, a nested list and a nested dict. *)
Definition sample_doc : list (list Z * jvalue) :=
  [(pystr "text", JStr (pystr "hello"));
   (pystr "duration", JFloat 4617315517961601024);
   (pystr "segments", JArr [JObj [(pystr "id", JInt 0); (pystr "no_speech", JBool false)]; JNull])].


(** A CLI run with GROQ_API_KEY set over [sample_world]: no directory
    exists beforehand and [os.makedirs] succeeds. *)
Definition sample_cli_world : cli_world := {|
  cw_env_key := Some "gsk_test_key_0000";
  cw_lib := sample_world;
  cw_isdir := fun _ => false;
  cw_makedirs := fun _ => true
|}.

(** [sample_world] with standard output encoded in ASCII (for instance
    under PYTHONIOENCODING=ascii): printing a line with a non-ASCII
    character raises UnicodeEncodeError. *)
Definition ascii_stdout_world : world := {|
  w_exists := w_exists sample_world;
  w_getsize := w_getsize sample_world;
  w_soundfile := w_soundfile sample_world;
  w_mutagen := w_mutagen sample_world;
  w_wave := w_wave sample_world;
  w_open := w_open sample_world;
  w_post := w_post sample_world;
  w_open_write := w_open_write sample_world;
  w_print := fun line =>
    if is_ascii_string line then None
    else Some "'ascii' codec can't encode character '\xe9' in position 20: ordinal not in range(128)"
|}.

(** A transcriber whose key ends in U+00E9 (e acute). *)
Definition accented_key_transcriber : transcriber :=
  {| api_key := "gsk_test_key_000" ++ String (ascii_of_nat 233) EmptyString;
     model := "whisper-large-v3";
     base_url := "https://api.groq.com/openai/v1/audio/transcriptions" |}.

(** The JSON value [sample_world]'s server answers. *)
Definition sample_response : jvalue := JObj [(pystr "text", JStr (pystr "hello"))].

(** ** Monad and trace lemmas *)

Arguments str_in : simpl never.
Arguments q_lt : simpl never.
Arguments size_mb : simpl never.
Arguments py_lower : simpl never.
Arguments splitext_ext : simpl never.

Definition is_probe (ev : event) : Prop := exists p, ev = EvProbe p.

Lemma bind_ok {A B} (m : M A) (f : A -> M B) t a :
  m = (t, Ok a) -> bind m f = (app t (fst (f a)), snd (f a)).
Proof. intros ->; simpl; destruct (f a); reflexivity. Qed.

Lemma bind_err {A B} (m : M A) (f : A -> M B) t e :
  m = (t, Err e) -> bind m f = (t, Err e).
Proof. intros ->; reflexivity. Qed.

Lemma q_lt_false_le x y : q_lt x y = false -> Qle_bool y x = true.
Proof. unfold q_lt; destruct (Qle_bool y x); easy. Qed.

Lemma method_soundfile_probes w path d :
  Forall is_probe (fst (method_soundfile w path d)).
Proof.
  unfold method_soundfile; simpl.
  destruct (w_soundfile w path) as [i|]; [destruct (sf_samplerate i =? 0)|];
    simpl; repeat constructor; eexists; reflexivity.
Qed.

Lemma method_mutagen_probes w path d :
  Forall is_probe (fst (method_mutagen w path d)).
Proof.
  unfold method_mutagen; simpl.
  destruct (w_mutagen w path) as [| |[l|] ch sr]; simpl; repeat constructor; eexists; reflexivity.
Qed.

Lemma method_wave_probes w path d :
  Forall is_probe (fst (method_wave w path d)).
Proof.
  unfold method_wave; simpl.
  destruct (w_wave w path) as [i|]; [destruct (wv_framerate i =? 0)|];
    simpl; repeat constructor; eexists; reflexivity.
Qed.

Lemma probe_chain_probes w path ext d :
  Forall is_probe (fst (probe_chain w path ext d)).
Proof.
  unfold probe_chain.
  pose proof (method_soundfile_probes w path d) as H1.
  destruct (method_soundfile w path d) as [t1 [o1|e1]] eqn:E1; simpl in *; [|exact H1].
  destruct o1 as [d1|d1]; simpl; rewrite ?app_nil_r; [exact H1|].
  pose proof (method_mutagen_probes w path d1) as H2.
  destruct (method_mutagen w path d1) as [t2 [o2|e2]] eqn:E2; simpl in *;
    [|apply Forall_app; split; assumption].
  destruct o2 as [d2|d2]; simpl; rewrite ?app_nil_r;
    [apply Forall_app; split; assumption|].
  destruct (String.eqb ext ".wav"); simpl; rewrite ?app_nil_r;
    [|apply Forall_app; split; assumption].
  pose proof (method_wave_probes w path d2) as H3.
  destruct (method_wave w path d2) as [t3 r3]; simpl in *.
  repeat (apply Forall_app; split); assumption.
Qed.

Lemma get_audio_details_probes w path :
  Forall is_probe (fst (get_audio_details w path)).
Proof.
  unfold get_audio_details, precheck.
  destruct (w_exists w path); simpl; [|constructor].
  destruct (str_in (py_lower (splitext_ext path)) SUPPORTED_EXTENSIONS); simpl; [|constructor].
  destruct (q_lt MAX_FILE_SIZE_MB (size_mb (w_getsize w path))); simpl; [constructor|].
  pose proof (probe_chain_probes w path (py_lower (splitext_ext path))
                (default_details (size_mb (w_getsize w path)))) as H.
  destruct (probe_chain _ _ _ _) as [t [o|e]]; simpl in *; rewrite ?app_nil_r; exact H.
Qed.

Lemma get_audio_details_ok_prechecks w path t d :
  get_audio_details w path = (t, Ok d) ->
  w_exists w path = true /\
  str_in (py_lower (splitext_ext path)) SUPPORTED_EXTENSIONS = true /\
  Qle_bool (size_mb (w_getsize w path)) MAX_FILE_SIZE_MB = true.
Proof.
  unfold get_audio_details, precheck.
  destruct (w_exists w path); simpl; [|discriminate].
  destruct (str_in (py_lower (splitext_ext path)) SUPPORTED_EXTENSIONS); simpl; [|discriminate].
  destruct (q_lt MAX_FILE_SIZE_MB (size_mb (w_getsize w path))) eqn:Hq; simpl; [discriminate|].
  intros _; repeat split; auto using q_lt_false_le.
Qed.

Lemma validate_method_probes w path :
  Forall is_probe (fst (validate_audio_file_method w path)).
Proof.
  unfold validate_audio_file_method.
  pose proof (get_audio_details_probes w path) as H.
  destruct (get_audio_details w path) as [t [d|e]]; simpl in *; [|exact H].
  destruct (q_lt (duration d) MIN_FILE_LENGTH_SECONDS); simpl; rewrite app_nil_r; exact H.
Qed.

Lemma not_in_probes ev t : Forall is_probe t -> ~ is_probe ev -> ~ In ev t.
Proof.
  intros H Hn Hin. rewrite Forall_forall in H. exact (Hn (H ev Hin)).
Qed.

Lemma post_not_probe rq : ~ is_probe (EvPost rq).
Proof. intros [p H]; discriminate. Qed.

Lemma open_not_probe p : ~ is_probe (EvOpenUpload p).
Proof. intros [q H]; discriminate. Qed.

Ltac no_post_in H Hp := exact (not_in_probes _ _ Hp (post_not_probe _) H).

Lemma validate_method_ok w path t d :
  get_audio_details w path = (t, Ok d) ->
  q_lt (duration d) MIN_FILE_LENGTH_SECONDS = false ->
  validate_audio_file_method w path = (t, Ok tt).
Proof.
  intros Eg Hd. unfold validate_audio_file_method. rewrite (bind_ok _ _ _ _ Eg), Hd.
  simpl. rewrite app_nil_r. reflexivity.
Qed.

Lemma validate_method_ok_inv w path t :
  validate_audio_file_method w path = (t, Ok tt) ->
  exists d, get_audio_details w path = (t, Ok d) /\
            q_lt (duration d) MIN_FILE_LENGTH_SECONDS = false.
Proof.
  unfold validate_audio_file_method.
  destruct (get_audio_details w path) as [t0 [d|e]]; simpl; [|discriminate].
  destruct (q_lt (duration d) MIN_FILE_LENGTH_SECONDS) eqn:Hd; simpl; [discriminate|].
  rewrite app_nil_r. intros H; inversion H; subst. eauto.
Qed.

Lemma transcribe_after_validation w self path fmt language :
  transcribe w self path fmt language =
  match validate_audio_file_method w path with
  | (t, Ok _) => (app t (fst (send_request w self path fmt language)),
                  snd (send_request w self path fmt language))
  | (t, Err e) => (t, Err e)
  end.
Proof.
  unfold transcribe.
  destruct (validate_audio_file_method w path) as [t [u|e]]; cbn [bind]; [|reflexivity].
  destruct (send_request w self path fmt language); reflexivity.
Qed.

Ltac split_prints w :=
  unfold py_print;
  repeat match goal with
         | |- context [w_print w ?l] => destruct (w_print w l)
         end;
  cbn [bind ret raise emit fst snd app].

Lemma send_request_trace w self path fmt language :
  fst (send_request w self path fmt language) = []
  \/ (fst (send_request w self path fmt language) = [EvOpenUpload path] /\
      exists msg, snd (send_request w self path fmt language) = Err (PrintFailed msg))
  \/ exists rq, fst (send_request w self path fmt language)
                = [EvOpenUpload path; EvPost rq; EvCloseUpload].
Proof.
  unfold send_request.
  destruct (str_in fmt SUPPORTED_FORMATS); cbn [negb]; [|left; reflexivity].
  destruct (w_open w path); cbn [negb]; [|left; reflexivity].
  split_prints w;
    try (right; left; split; [reflexivity | eexists; reflexivity]).
  right; right. eexists.
  match goal with |- context [w_post w ?r] => destruct (w_post w r) as [| |st tx [v|]] end;
    cbn [bind ret raise emit fst snd app try_finally]; try reflexivity.
  all: destruct (negb (st =? 200)); reflexivity.
Qed.

(** ** Lemmas: the scanner reads back what the encoder writes *)

Lemma str_app_assoc (a b c : string) : (a ++ b) ++ c = a ++ (b ++ c).
Proof. induction a; simpl; [reflexivity | now rewrite IHa]. Qed.

Lemma str_app_nil_r (a : string) : a ++ "" = a.
Proof. induction a; simpl; [reflexivity | now rewrite IHa]. Qed.

Lemma str_length_app (a b : string) : String.length (a ++ b) = (String.length a + String.length b)%nat.
Proof. induction a; simpl; [reflexivity | now rewrite IHa]. Qed.

Lemma substring_all (s : string) : substring 0 (String.length s) s = s.
Proof. induction s; simpl; [reflexivity | now rewrite IHs]. Qed.




Lemma skip_ws_head a s : is_ws a = false -> skip_ws (String a s) = String a s.
Proof. intros H. simpl. now rewrite H. Qed.









Lemma dec_digits_value fuel n acc :
  fold_left dstep (dec_digits_aux fuel n acc) 0 = fold_left dstep acc n.
Proof.
  revert n acc. induction fuel as [|fuel IH]; intros n acc; simpl; [reflexivity|].
  destruct (n <? 10); simpl; [reflexivity|].
  rewrite IH. simpl. f_equal. unfold dstep. pose proof (Z.div_mod n 10). lia.
Qed.

Lemma dec_digits_range fuel n acc :
  0 <= n < 10 ^ Z.of_nat (S fuel) -> Forall is_dig acc -> Forall is_dig (dec_digits_aux fuel n acc).
Proof.
  revert n acc. induction fuel as [|fuel IH]; intros n acc Hn Hacc; simpl.
  - constructor; [unfold is_dig; simpl in Hn; lia|exact Hacc].
  - destruct (Z.ltb_spec n 10).
    + constructor; [unfold is_dig; lia|exact Hacc].
    + apply IH.
      * split; [apply Z.div_pos; lia|].
        apply Z.div_lt_upper_bound; [lia|].
        rewrite Nat2Z.inj_succ, Z.pow_succ_r in Hn by lia. exact (proj2 Hn).
      * constructor; [|exact Hacc]. unfold is_dig. pose proof (Z.mod_pos_bound n 10). lia.
Qed.


Lemma dec_digits_fuel n : 0 <= n -> 0 <= n < 10 ^ Z.of_nat (S (Z.to_nat (Z.log2 n))).
Proof.
  intros Hn. split; [exact Hn|].
  rewrite Nat2Z.inj_succ, Z2Nat.id by apply Z.log2_nonneg.
  destruct (Z.eq_dec n 0) as [->|Hn0]; [reflexivity|].
  destruct (Z.log2_spec n) as [_ H]; [lia|].
  eapply Z.lt_le_trans; [exact H|]. apply Z.pow_le_mono_l.
  lia.
Qed.

Lemma dec_digits_ok n : 0 <= n ->
  Forall is_dig (dec_digits n) /\ fold_left dstep (dec_digits n) 0 = n.
Proof.
  intros Hn. unfold dec_digits. split.
  - apply dec_digits_range; [apply dec_digits_fuel; exact Hn|constructor].
  - rewrite dec_digits_value. reflexivity.
Qed.































Lemma jvalue_ind' (P : jvalue -> Prop)
  (Hnull : P JNull) (Hbool : forall b, P (JBool b)) (Hint : forall z, P (JInt z))
  (Hfloat : forall b, P (JFloat b)) (Hstr : forall s, P (JStr s))
  (Harr : forall xs, Forall P xs -> P (JArr xs))
  (Hobj : forall kvs, Forall (fun kv => P (snd kv)) kvs -> P (JObj kvs)) :
  forall v, P v.
Proof.
  fix IH 1. intros v. destruct v as [| b | z | b | s | xs | kvs].
  - exact Hnull.
  - apply Hbool.
  - apply Hint.
  - apply Hfloat.
  - apply Hstr.
  - apply Harr. exact ((fix G (l : list jvalue) : Forall P l :=
      match l with
      | [] => Forall_nil P
      | y :: l' => @Forall_cons _ P y l' (IH y) (G l')
      end) xs).
  - apply Hobj. exact ((fix G (l : list (list Z * jvalue)) : Forall (fun kv => P (snd kv)) l :=
      match l with
      | [] => Forall_nil _
      | y :: l' => @Forall_cons _ (fun kv => P (snd kv)) y l' (IH (snd y)) (G l')
      end) kvs).
Qed.






Section EncodeShape.

Variable fr : Z -> string.
Variable pf : string -> Z.



Lemma encode_arr_cons lvl x xs :
  encode fr lvl (JArr (x :: xs)) =
  "[" ++ newline_indent (S lvl) ++ encode fr (S lvl) x ++ arr_items fr lvl xs ++ newline_indent lvl ++ "]".
Proof.
  cbn [encode]. do 3 f_equal. f_equal.
  induction xs as [|y ys IH]; [reflexivity|]. cbn [arr_items]. rewrite <- IH. reflexivity.
Qed.

Lemma encode_obj_cons lvl k x kvs :
  encode fr lvl (JObj ((k, x) :: kvs)) =
  "{" ++ newline_indent (S lvl) ++ encode_basestring_ascii k ++ ": " ++ encode fr (S lvl) x
  ++ obj_items fr lvl kvs ++ newline_indent lvl ++ "}".
Proof.
  cbn [encode]. do 5 f_equal. f_equal.
  induction kvs as [|[k' y] kvs IH]; [reflexivity|]. cbn [obj_items]. rewrite <- IH. reflexivity.
Qed.

End EncodeShape.










Section ScanSteps.

Variable fr : Z -> string.
Variable pf : string -> Z.













End ScanSteps.


Section ScanEncode.

Variable fr : Z -> string.
Variable pf : string -> Z.





End ScanEncode.

(** ** Claims *)

(** C1: a transcription request is sent only for a file that has passed
    every policy check of the transcriber's configuration: it exists, its
    lower-cased extension is allowed, its size is at most 25 MB, and the
    duration found by the inspector is at least 0.01 s.  The probing trace
    of the validation precedes the request in the event trace. *)
Theorem transcribe_posts_only_after_validation :
  forall w self path fmt language rq,
    In (EvPost rq) (fst (transcribe w self path fmt language)) ->
    w_exists w path = true /\
    str_in (py_lower (splitext_ext path)) SUPPORTED_EXTENSIONS = true /\
    Qle_bool (size_mb (w_getsize w path)) MAX_FILE_SIZE_MB = true /\
    exists t d rest,
      get_audio_details w path = (t, Ok d) /\
      Qle_bool MIN_FILE_LENGTH_SECONDS (duration d) = true /\
      fst (transcribe w self path fmt language) = app t rest /\
      In (EvPost rq) rest.
Proof.
  intros w self path fmt language rq Hin.
  rewrite transcribe_after_validation in *.
  pose proof (validate_method_probes w path) as Hp.
  destruct (validate_audio_file_method w path) as [t [u|e]] eqn:Ev; simpl in Hin, Hp.
  2: { exfalso; no_post_in Hin Hp. }
  destruct u.
  destruct (validate_method_ok_inv _ _ _ Ev) as (d & Eg & Hd).
  destruct (get_audio_details_ok_prechecks _ _ _ _ Eg) as (H1 & H2 & H3).
  repeat split; auto.
  exists t, d, (fst (send_request w self path fmt language)).
  repeat split; auto using q_lt_false_le.
  apply in_app_or in Hin as [Hin|Hin]; auto.
  exfalso; no_post_in Hin Hp.
Qed.

(** C4: for an existing file with an allowed extension whose size in MB
    exceeds the maximum, both validators fail with FileTooLarge before any
    probing method runs (empty trace): [utils.validate_audio_file] for any
    configured maximum, the transcriber for its 25 MB limit; the message
    contains the limit and the computed size. *)
Theorem size_check_precedes_probing :
  forall w path,
    w_exists w path = true ->
    str_in (py_lower (splitext_ext path)) DEFAULT_EXTENSIONS = true ->
    (forall max_mb min_len,
        q_lt max_mb (size_mb (w_getsize w path)) = true ->
        validate_audio_file w path max_mb min_len None
        = ([], Err (FileTooLarge max_mb (size_mb (w_getsize w path))))) /\
    (q_lt MAX_FILE_SIZE_MB (size_mb (w_getsize w path)) = true ->
        get_audio_details w path
        = ([], Err (FileTooLarge MAX_FILE_SIZE_MB (size_mb (w_getsize w path)))) /\
        validate_audio_file_method w path
        = ([], Err (FileTooLarge MAX_FILE_SIZE_MB (size_mb (w_getsize w path))))) /\
    (forall limit size,
        In (PNum limit) (message (FileTooLarge limit size)) /\
        In (PFixed2 size) (message (FileTooLarge limit size))).
Proof.
  intros w path He Hx.
  assert (Hx' : str_in (py_lower (splitext_ext path)) SUPPORTED_EXTENSIONS = true) by exact Hx.
  split; [|split].
  - intros max_mb min_len Hs.
    unfold validate_audio_file, precheck. rewrite He, Hx, Hs. reflexivity.
  - intros Hs.
    assert (Eg : get_audio_details w path
                 = ([], Err (FileTooLarge MAX_FILE_SIZE_MB (size_mb (w_getsize w path))))).
    { unfold get_audio_details, precheck. rewrite He, Hx', Hs. reflexivity. }
    split; [exact Eg|].
    unfold validate_audio_file_method. rewrite Eg. reflexivity.
  - intros limit size. simpl. split; auto 6.
Qed.

(** C5: for an existing file whose lower-cased extension is not in the
    allow-list, both validators fail with UnsupportedExtension, and
    [transcribe] fails with it with an empty trace: no probing, no upload,
    no request. *)
Theorem unsupported_extension_rejected :
  forall w path,
    w_exists w path = true ->
    str_in (py_lower (splitext_ext path)) DEFAULT_EXTENSIONS = false ->
    let ext := py_lower (splitext_ext path) in
    (forall max_mb min_len,
        validate_audio_file w path max_mb min_len None
        = ([], Err (UnsupportedExtension ext DEFAULT_EXTENSIONS))) /\
    get_audio_details w path = ([], Err (UnsupportedExtension ext SUPPORTED_EXTENSIONS)) /\
    (forall self fmt language,
        transcribe w self path fmt language
        = ([], Err (UnsupportedExtension ext SUPPORTED_EXTENSIONS))).
Proof.
  intros w path He Hx ext.
  assert (Hx' : str_in (py_lower (splitext_ext path)) SUPPORTED_EXTENSIONS = false) by exact Hx.
  assert (Eg : get_audio_details w path = ([], Err (UnsupportedExtension ext SUPPORTED_EXTENSIONS))).
  { unfold get_audio_details, precheck. rewrite He, Hx'. reflexivity. }
  split; [|split; [exact Eg|]].
  - intros max_mb min_len. unfold validate_audio_file, precheck. rewrite He, Hx. reflexivity.
  - intros self fmt language. rewrite transcribe_after_validation.
    unfold validate_audio_file_method. rewrite Eg. reflexivity.
Qed.

(** C6 (counterexample): with an unsupported format and a missing file,
    [transcribe] fails with FileNotFound, not UnsupportedFormat: the file
    is validated first. *)
Lemma transcribe_srt_missing_file_not_unsupported_format :
  transcribe empty_world sample_transcriber "missing.mp3" "srt" None
  = ([], Err (FileNotFound "missing.mp3")) /\
  snd (transcribe empty_world sample_transcriber "missing.mp3" "srt" None)
  <> Err (UnsupportedFormat "srt").
Proof. split; vm_compute; [reflexivity|discriminate]. Qed.

(** C6 (amended): with a response format outside {json, verbose_json,
    text}, [transcribe] makes no network call and opens nothing for
    upload (its trace is the validation's probing only); it fails with
    the validation error when the file fails validation, and otherwise
    with UnsupportedFormat. *)
Theorem unsupported_format_no_network :
  forall w self path fmt language,
    str_in fmt SUPPORTED_FORMATS = false ->
    fst (transcribe w self path fmt language) = fst (validate_audio_file_method w path) /\
    Forall is_probe (fst (transcribe w self path fmt language)) /\
    snd (transcribe w self path fmt language)
    = match snd (validate_audio_file_method w path) with
      | Ok _ => Err (UnsupportedFormat fmt)
      | Err e => Err e
      end.
Proof.
  intros w self path fmt language Hf.
  rewrite transcribe_after_validation.
  assert (Es : send_request w self path fmt language = ([], Err (UnsupportedFormat fmt))).
  { unfold send_request. rewrite Hf. reflexivity. }
  pose proof (validate_method_probes w path) as Hp.
  destruct (validate_audio_file_method w path) as [t [u|e]]; rewrite ?Es; simpl;
    rewrite ?app_nil_r; auto.
Qed.

(** C7 (code_bug): the five request-detail lines are printed after the
    file is opened for upload and before the [try] whose [finally] closes
    it.  With an ASCII standard output and a key ending in a non-ASCII
    character, printing the key line raises UnicodeEncodeError and
    [transcribe] exits with the upload handle open: the trace ends with
    the open and holds no close. *)
Theorem upload_left_open_when_print_fails :
  transcribe ascii_stdout_world accented_key_transcriber "clip.wav" "json" None
  = ([EvProbe ProbeSoundfile; EvOpenUpload "clip.wav"],
     Err (PrintFailed "'ascii' codec can't encode character '\xe9' in position 20: ordinal not in range(128)")) /\
  ~ In EvCloseUpload (fst (transcribe ascii_stdout_world accented_key_transcriber "clip.wav" "json" None)).
Proof.
  assert (E : transcribe ascii_stdout_world accented_key_transcriber "clip.wav" "json" None
              = ([EvProbe ProbeSoundfile; EvOpenUpload "clip.wav"],
                 Err (PrintFailed "'ascii' codec can't encode character '\xe9' in position 20: ordinal not in range(128)")))
    by (vm_compute; reflexivity).
  split; [exact E|]. rewrite E. cbn [fst In].
  intros [H|[H|H]]; [discriminate H | discriminate H | exact H].
Qed.

Lemma dict_get_in d k v default :
  NoDup (map fst d) -> In (k, v) d -> dict_get d k default = v.
Proof.
  induction d as [|[k' v'] d IH]; simpl; [contradiction|].
  intros Hnd [Heq|Hin]; inversion Hnd as [|? ? Hnotin Hnd']; subst.
  - inversion Heq; subst. destruct (list_eq_dec Z.eq_dec k k); [reflexivity|congruence].
  - destruct (list_eq_dec Z.eq_dec k k') as [->|Hne]; [|auto].
    exfalso. apply Hnotin. apply (in_map fst) in Hin. exact Hin.
Qed.

Lemma dict_get_notin d k default :
  ~ In k (map fst d) -> dict_get d k default = default.
Proof.
  induction d as [|[k' v'] d IH]; simpl; [reflexivity|].
  intros Hn. destruct (list_eq_dec Z.eq_dec k k') as [->|Hne]; [tauto|auto].
Qed.

(** C9: [export(result, 'text')] returns the value bound to "text" when
    the key is present, and the empty string otherwise; nothing is
    written. *)
Theorem export_text_field :
  forall w float_repr d,
    NoDup (map fst d) ->
    (forall v, In (pystr "text", v) d ->
               export_transcription w float_repr d "text" None = ([], Ok v)) /\
    (~ In (pystr "text") (map fst d) ->
     export_transcription w float_repr d "text" None = ([], Ok (JStr []))).
Proof.
  intros w float_repr d Hnd. split.
  - intros v Hin. unfold export_transcription.
    rewrite (dict_get_in _ _ _ (JStr []) Hnd Hin). reflexivity.
  - intros Hn. unfold export_transcription.
    rewrite (dict_get_notin _ _ (JStr []) Hn). reflexivity.
Qed.

(** C10: any other output format fails with UnsupportedExportFormat with
    an empty trace: with or without an output path, no file is opened or
    written. *)
Theorem export_unsupported_format_writes_nothing :
  forall w float_repr d fmt out,
    fmt <> "json" -> fmt <> "text" ->
    export_transcription w float_repr d fmt out = ([], Err (UnsupportedExportFormat fmt)).
Proof.
  intros w float_repr d fmt out Hj Ht.
  apply String.eqb_neq in Hj, Ht.
  unfold export_transcription. rewrite Hj, Ht. reflexivity.
Qed.

(** C2 (code_bug): [utils.validate_audio_file] accepts a file of duration
    0 s when the soundfile reader succeeds, because a successful method
    returns before the minimum-length check; the transcriber's validator
    rejects the same file with FileTooShort. *)
Theorem utils_validator_skips_min_length_after_probe :
  (exists t d, validate_audio_file silent_world "silence.wav" (25 # 1) (1 # 100) None
               = (t, Ok d) /\ duration d == 0) /\
  (exists len, validate_audio_file_method silent_world "silence.wav"
               = ([EvProbe ProbeSoundfile], Err (FileTooShort MIN_FILE_LENGTH_SECONDS len))
               /\ len == 0).
Proof.
  split.
  - do 2 eexists. split; [vm_compute; reflexivity|]. vm_compute. reflexivity.
  - eexists. split; [vm_compute; reflexivity|]. vm_compute. reflexivity.
Qed.

(** C3 (code_bug): all three probing methods fail on "tone.wav" (the WAV
    reader raises ZeroDivisionError on the frame rate 0), yet the
    inspector returns 2 channels, not the default 1: the WAV reader wrote
    the channel count into the shared dict before raising. *)
Theorem inspector_keeps_wave_header_after_failure :
  exists d,
    probe_chain zero_rate_world "tone.wav" ".wav" (default_details (size_mb 1000))
    = ([EvProbe ProbeSoundfile; EvProbe ProbeMutagen; EvProbe ProbeWave], Ok (FellThrough d)) /\
    get_audio_details zero_rate_world "tone.wav"
    = ([EvProbe ProbeSoundfile; EvProbe ProbeMutagen; EvProbe ProbeWave], Ok d) /\
    channels d = 2 /\ sample_rate d = 0 /\ duration d = 0%Q.
Proof.
  eexists. split; [vm_compute; reflexivity|]. split; vm_compute; [reflexivity|].
  repeat split.
Qed.



(** ** Further properties *)

Lemma ascii_app a b : is_ascii_string (a ++ b) = is_ascii_string a && is_ascii_string b.
Proof. induction a as [|c a IH]; simpl; [reflexivity|]. unfold is_ascii_string in *. simpl. rewrite IH. apply andb_assoc. Qed.

Lemma ascii_cons c s : is_ascii_string (String c s) = (nat_of_ascii c <? 128)%nat && is_ascii_string s.
Proof. reflexivity. Qed.

Lemma ascii_of_small k : (k < 128)%nat -> (nat_of_ascii (ascii_of_nat k) <? 128)%nat = true.
Proof. intros H. rewrite nat_ascii_embedding by lia. apply Nat.ltb_lt. exact H. Qed.

Lemma hexdig_ascii n : (nat_of_ascii (hexdig (n mod 16)) <? 128)%nat = true.
Proof.
  unfold hexdig. pose proof (Z.mod_pos_bound n 16 ltac:(lia)).
  apply ascii_of_small. destruct (n mod 16 <? 10); lia.
Qed.

Lemma u_escape_ascii n : is_ascii_string (u_escape n) = true.
Proof.
  unfold u_escape, hex4. rewrite !ascii_cons. rewrite !hexdig_ascii. reflexivity.
Qed.

Lemma encode_char_ascii c : is_ascii_string (encode_char c) = true.
Proof.
  unfold encode_char.
  destruct (c =? 34); [reflexivity|]. destruct (c =? 92); [reflexivity|].
  destruct (c =? 8); [reflexivity|]. destruct (c =? 12); [reflexivity|].
  destruct (c =? 10); [reflexivity|]. destruct (c =? 13); [reflexivity|].
  destruct (c =? 9); [reflexivity|].
  destruct ((32 <=? c) && (c <=? 126)) eqn:Ep.
  - apply andb_true_iff in Ep as [E1 E2]. apply Z.leb_le in E1, E2.
    rewrite ascii_cons, ascii_of_small by lia. reflexivity.
  - destruct (c <? 65536); [apply u_escape_ascii|].
    cbv zeta. rewrite ascii_app, !u_escape_ascii. reflexivity.
Qed.

Lemma encode_chars_ascii cs : is_ascii_string (encode_chars cs) = true.
Proof.
  induction cs as [|c cs IH]; [reflexivity|]. cbn [encode_chars].
  rewrite ascii_app, encode_char_ascii, IH. reflexivity.
Qed.

Lemma ebs_ascii cs : is_ascii_string (encode_basestring_ascii cs) = true.
Proof.
  unfold encode_basestring_ascii. rewrite ascii_cons, ascii_app, encode_chars_ascii. reflexivity.
Qed.

Lemma digits_string_ascii ds : Forall is_dig ds -> is_ascii_string (digits_string ds) = true.
Proof.
  induction 1 as [|d ds Hd _ IH]; [reflexivity|]. cbn [digits_string].
  rewrite ascii_cons, IH. unfold digit_char, is_dig in *. rewrite ascii_of_small by lia. reflexivity.
Qed.

Lemma int_repr_ascii z : is_ascii_string (int_repr z) = true.
Proof.
  unfold int_repr. destruct (Z.ltb_spec z 0).
  - rewrite ascii_cons, digits_string_ascii by (apply dec_digits_ok; lia). reflexivity.
  - apply digits_string_ascii, dec_digits_ok. lia.
Qed.

Lemma newline_indent_ascii n : is_ascii_string (newline_indent n) = true.
Proof.
  unfold newline_indent, spaces. rewrite ascii_cons. unfold is_ascii_string.
  rewrite list_ascii_of_string_of_list_ascii. generalize (2 * n)%nat. induction n0; simpl; auto.
Qed.

Section AsciiEnc.
Variable fr : Z -> string.
Hypothesis fr_ascii : forall b, is_ascii_string (fr b) = true.

Lemma encode_ascii : forall v lvl, is_ascii_string (encode fr lvl v) = true.
Proof.
  apply (jvalue_ind' (fun v => forall lvl, is_ascii_string (encode fr lvl v) = true)).
  - reflexivity.
  - intros [|]; reflexivity.
  - intros z lvl. apply int_repr_ascii.
  - intros b lvl. cbn [encode]. unfold floatstr.
    destruct (is_nan_bits b); [reflexivity|]. destruct (b =? posinf_bits); [reflexivity|].
    destruct (b =? neginf_bits); [reflexivity|]. apply fr_ascii.
  - intros s lvl. apply ebs_ascii.
  - intros xs IH lvl. destruct xs as [|x xs]; [reflexivity|]. rewrite encode_arr_cons.
    inversion IH as [|? ? Hx Hxs]; subst.
    assert (Hi : is_ascii_string (arr_items fr lvl xs) = true).
    { clear Hx IH. induction Hxs as [|y ys Hy _ IHy]; [reflexivity|].
      cbn [arr_items]. rewrite !ascii_app, newline_indent_ascii, Hy, IHy. reflexivity. }
    rewrite !ascii_app, !newline_indent_ascii, Hx, Hi. reflexivity.
  - intros kvs IH lvl. destruct kvs as [|[k x] kvs]; [reflexivity|]. rewrite encode_obj_cons.
    inversion IH as [|? ? Hx Hxs]; subst. simpl in Hx.
    assert (Hi : is_ascii_string (obj_items fr lvl kvs) = true).
    { clear Hx IH. induction Hxs as [|[k' y] ys Hy _ IHy]; [reflexivity|]. simpl in Hy.
      cbn [obj_items]. rewrite !ascii_app, newline_indent_ascii, ebs_ascii, Hy, IHy. reflexivity. }
    rewrite !ascii_app, !newline_indent_ascii, ebs_ascii, Hx, Hi. reflexivity.
Qed.
End AsciiEnc.

(** X1: the 'json' export is pure ASCII: every code point of the returned string is below 128, whatever the transcription holds, as long as [repr] of a float is ASCII ([json.dumps] escapes everything else as \uXXXX). *)
Theorem export_json_is_ascii w fr d out t cs :
  (forall b, is_ascii_string (fr b) = true) ->
  export_transcription w fr d "json" out = (t, Ok (JStr cs)) ->
  forallb (fun c => c <? 128) cs = true.
Proof.
  intros Hfr E.
  assert (Hc : cs = pystr (json_dumps fr (JObj d))).
  { unfold export_transcription, py_json_dumps, write_file in E.
    cbn [String.eqb Ascii.eqb Bool.eqb] in E.
    destruct (ints_fit (JObj d)); cbn [ret raise bind] in E; [|discriminate E].
    destruct out as [p|]; [destruct (String.eqb p "")|]; cbn [ret raise bind] in E;
      [| destruct (w_open_write w p); cbn [ret raise emit bind app] in E; [discriminate E|] |];
      inversion E; reflexivity. }
  subst cs. clear E. pose proof (encode_ascii fr Hfr (JObj d) 0%nat) as H.
  unfold json_dumps, pystr, is_ascii_string in *.
  induction (list_ascii_of_string (encode fr 0 (JObj d))) as [|a l IH]; [reflexivity|].
  simpl in H |- *. apply andb_true_iff in H as [H1 H2]. rewrite IH by exact H2.
  apply Nat.ltb_lt in H1. rewrite andb_true_r. apply Z.ltb_lt. lia.
Qed.

Lemma q_lt_size_limit m n : 0 < m -> q_lt (m # 1) (size_mb n) = negb (n <=? m * 1048576).
Proof.
  intros Hm. unfold q_lt, size_mb, Qle_bool. f_equal. simpl.
  destruct (Z.leb_spec (n * 1 * 1) (m * 1048576)); destruct (Z.leb_spec n (m * 1048576)); lia.
Qed.

(** X2: for an existing file with an allowed extension and an integral limit of [m] MB, the size check passes exactly when the file has at most [m * 1048576] bytes. *)
Theorem precheck_size_limit w path m exts :
  0 < m -> w_exists w path = true -> str_in (py_lower (splitext_ext path)) exts = true ->
  snd (precheck w path (m # 1) exts) =
  if w_getsize w path <=? m * 1048576
  then Ok (py_lower (splitext_ext path), size_mb (w_getsize w path))
  else Err (FileTooLarge (m # 1) (size_mb (w_getsize w path))).
Proof.
  intros Hm He Hx. unfold precheck. rewrite He, Hx. cbv beta iota zeta.
  rewrite q_lt_size_limit by exact Hm.
  destruct (w_getsize w path <=? m * 1048576); reflexivity.
Qed.

Lemma probe_chain_size w path ext d t o :
  probe_chain w path ext d = (t, Ok o) -> file_size_mb (outcome_details o) = file_size_mb d.
Proof.
  unfold probe_chain, method_soundfile, method_mutagen, method_wave.
  destruct (w_soundfile w path) as [i|]; [destruct (sf_samplerate i =? 0)|]; cbn [emit ret bind app].
  all: try (intros H; inversion H; reflexivity).
  all: destruct (w_mutagen w path) as [| |[l|] ch sr]; cbn [emit ret bind app].
  all: try (intros H; inversion H; reflexivity).
  all: destruct (String.eqb ext ".wav"); cbn [emit ret bind app].
  all: try (intros H; inversion H; reflexivity).
  all: destruct (w_wave w path) as [j|]; [destruct (wv_framerate j =? 0)|]; cbn [emit ret bind app];
    intros H; inversion H; reflexivity.
Qed.

(** X3: a successful inspection or validation reports as [file_size_mb] the size in MB of the file on disk: no probing method overwrites it. *)
Theorem probes_keep_file_size w path :
  (forall t d, get_audio_details w path = (t, Ok d) -> file_size_mb d = size_mb (w_getsize w path)) /\
  (forall max_mb min_len exts t d, validate_audio_file w path max_mb min_len exts = (t, Ok d) ->
     file_size_mb d = size_mb (w_getsize w path)).
Proof.
  split.
  - intros t d. unfold get_audio_details, precheck.
    destruct (w_exists w path); [|discriminate]. cbn [negb].
    destruct (str_in _ _); [|discriminate]. cbn [negb].
    destruct (q_lt _ _); [discriminate|]. cbn [ret bind].
    destruct (probe_chain _ _ _ _) as [t1 [o|e]] eqn:E; [|discriminate]. cbn [ret bind].
    intros H; inversion H; subst. apply (probe_chain_size _ _ _ _ _ _ E).
  - intros max_mb min_len exts t d. unfold validate_audio_file, precheck.
    destruct (w_exists w path); [|discriminate]. cbn [negb].
    destruct (str_in _ _); [|discriminate]. cbn [negb].
    destruct (q_lt _ _); [discriminate|]. cbn [ret bind].
    destruct (probe_chain _ _ _ _) as [t1 [o|e]] eqn:E; [|discriminate]. cbn [ret bind].
    pose proof (probe_chain_size _ _ _ _ _ _ E) as Hs.
    destruct o as [d'|d']; cbn [outcome_details] in Hs; cbn [ret bind raise].
    + intros H; inversion H; subst; exact Hs.
    + destruct (q_lt (duration d') min_len); [discriminate|]. intros H; inversion H; subst; exact Hs.
Qed.


Lemma send_request_ok w self path fmt language t v :
  send_request w self path fmt language = (t, Ok v) ->
  exists rq text, t = [EvOpenUpload path; EvPost rq; EvCloseUpload] /\
    w_post w rq = PostResponse 200 text (Some v) /\
    rq = {| rq_url := base_url self; rq_authorization := "Bearer " ++ api_key self;
            rq_payload := app [("model", model self); ("response_format", fmt)]
              (match language with
               | Some l => if String.eqb l "" then [] else [("language", l)]
               | None => [] end);
            rq_filename := basename path; rq_content_type := "audio/mpeg" |}.
Proof.
  unfold send_request.
  destruct (str_in fmt SUPPORTED_FORMATS); cbn [negb]; [|discriminate].
  destruct (w_open w path); cbn [negb]; [|discriminate].
  split_prints w; try discriminate.
  match goal with |- context [w_post w ?r] => destruct (w_post w r) as [| |st tx [js|]] eqn:Ep end;
    cbn [emit ret bind raise try_finally app fst]; try discriminate.
  - destruct (Z.eqb_spec st 200) as [->|]; cbn [negb raise ret bind app]; [|discriminate].
    intros H; inversion H; subst. eauto.
  - destruct (negb (st =? 200)); discriminate.
Qed.

Lemma send_request_posts w self path fmt language rq :
  In (EvPost rq) (fst (send_request w self path fmt language)) ->
  str_in fmt SUPPORTED_FORMATS = true /\
  rq = {| rq_url := base_url self; rq_authorization := "Bearer " ++ api_key self;
          rq_payload := app [("model", model self); ("response_format", fmt)]
            (match language with
             | Some l => if String.eqb l "" then [] else [("language", l)]
             | None => [] end);
          rq_filename := basename path; rq_content_type := "audio/mpeg" |}.
Proof.
  unfold send_request.
  destruct (str_in fmt SUPPORTED_FORMATS); cbn [negb]; [|intros []].
  destruct (w_open w path); cbn [negb]; [|intros []].
  split_prints w; try (intros [H|[]]; discriminate H).
  match goal with |- context [w_post w ?r] => destruct (w_post w r) as [| |st tx [js|]] eqn:Ep end;
    cbn [emit ret bind raise try_finally app fst];
    try (destruct (negb (st =? 200)); cbn [emit ret bind raise try_finally app fst]);
    (intros [H|[H|[H|[]]]]; [discriminate|inversion H; auto|discriminate]).
Qed.

(** X5: [transcribe] returns a value only when it posted a request and the server answered 200 with that JSON value. *)
Theorem transcribe_ok_means_200 w self path fmt language t v :
  transcribe w self path fmt language = (t, Ok v) ->
  exists rq text, In (EvPost rq) t /\ w_post w rq = PostResponse 200 text (Some v).
Proof.
  rewrite transcribe_after_validation.
  destruct (validate_audio_file_method w path) as [t1 [u|e]]; [|discriminate].
  destruct (send_request w self path fmt language) as [t2 r2] eqn:E. cbn [fst snd].
  intros H; inversion H; subst. destruct (send_request_ok _ _ _ _ _ _ _ E) as (rq & text & -> & Hp & _).
  exists rq, text. split; [apply in_or_app; right; simpl; auto|exact Hp].
Qed.

(** X6: every request [transcribe] posts goes to the transcriber's URL with the Bearer key, the file's basename, a supported format, and the payload model, response_format and (for a non-empty language) language. *)
Theorem transcribe_request_fields w self path fmt language t r rq :
  transcribe w self path fmt language = (t, r) -> In (EvPost rq) t ->
  str_in fmt SUPPORTED_FORMATS = true /\
  rq_url rq = base_url self /\ rq_authorization rq = "Bearer " ++ api_key self /\
  rq_filename rq = basename path /\
  rq_payload rq = app [("model", model self); ("response_format", fmt)]
    (match language with
     | Some l => if String.eqb l "" then [] else [("language", l)]
     | None => [] end).
Proof.
  rewrite transcribe_after_validation.
  pose proof (validate_method_probes w path) as Hp.
  destruct (validate_audio_file_method w path) as [t1 [u|e]]; intros H Hin; inversion H; subst; clear H.
  - apply in_app_or in Hin as [Hin|Hin].
    + exfalso. exact (not_in_probes _ _ Hp (post_not_probe _) Hin).
    + destruct (send_request_posts _ _ _ _ _ _ Hin) as [Hf ->]. repeat split; auto.
  - exfalso. exact (not_in_probes _ _ Hp (post_not_probe _) Hin).
Qed.

Lemma probes_no_post t : Forall is_probe t -> post_count t = 0%nat.
Proof.
  unfold post_count. induction 1 as [|e t [p ->] _ IH]; simpl; auto.
Qed.

Lemma post_count_app t1 t2 : post_count (t1 ++ t2) = (post_count t1 + post_count t2)%nat.
Proof. unfold post_count. rewrite filter_app, length_app. reflexivity. Qed.


Lemma transcribe_ok_shape w self path fmt t v :
  transcribe w self path fmt None = (t, Ok v) ->
  post_count t = 1%nat /\
  (forall rq, In (EvPost rq) t ->
     rq_payload rq = [("model", model self); ("response_format", fmt)]).
Proof.
  rewrite transcribe_after_validation.
  pose proof (validate_method_probes w path) as Hp.
  destruct (validate_audio_file_method w path) as [t1 [u|e]]; [|discriminate]. cbn [fst] in Hp.
  destruct (send_request w self path fmt None) as [t2 r2] eqn:E. cbn [fst snd].
  intros H; inversion H; subst; clear H.
  destruct (send_request_ok _ _ _ _ _ _ _ E) as (rq & text & -> & _ & Hrq).
  split.
  - rewrite post_count_app, (probes_no_post _ Hp). reflexivity.
  - intros rq' Hin. apply in_app_or in Hin as [Hin|Hin].
    + exfalso. exact (not_in_probes _ _ Hp (post_not_probe _) Hin).
    + destruct Hin as [H|[H|[H|[]]]]; try discriminate. inversion H; subst. reflexivity.
Qed.

(** X7: a successful [batch_transcribe] returns one result per path and posts exactly one request per path, none of them with a language field. *)
Theorem batch_transcribe_ok w self paths fmt t rs :
  batch_transcribe w self paths fmt = (t, Ok rs) ->
  length rs = length paths /\ post_count t = length paths /\
  (forall rq, In (EvPost rq) t ->
     rq_payload rq = [("model", model self); ("response_format", fmt)]).
Proof.
  revert t rs. induction paths as [|p ps IH]; intros t rs H.
  - cbn in H. inversion H; subst. repeat split; intros ? [].
  - cbn [batch_transcribe] in H.
    destruct (transcribe w self p fmt None) as [t1 [v|e]] eqn:E1; cbn [bind] in H; [|discriminate].
    destruct (batch_transcribe w self ps fmt) as [t2 [vs|e]] eqn:E2; cbn in H; [|discriminate].
    rewrite !app_nil_r in H. inversion H; subst; clear H.
    destruct (transcribe_ok_shape _ _ _ _ _ _ E1) as [C1 P1].
    destruct (IH _ _ eq_refl) as (L & C2 & P2).
    repeat split.
    + cbn. rewrite L. reflexivity.
    + rewrite post_count_app, C1, C2. reflexivity.
    + intros rq Hin. apply in_app_or in Hin as [Hin|Hin]; auto.
Qed.

(** X8: [batch_transcribe] stops at the first failing path: the later paths are never touched and the error of that path is returned. *)
Theorem batch_transcribe_first_error w self pre p ps fmt t e :
  (forall q, In q pre -> exists tq vq, transcribe w self q fmt None = (tq, Ok vq)) ->
  transcribe w self p fmt None = (t, Err e) ->
  batch_transcribe w self (pre ++ p :: ps) fmt =
  (app (flat_map (fun q => fst (transcribe w self q fmt None)) pre) t, Err e).
Proof.
  intros Hpre Hp. induction pre as [|q qs IH].
  - cbn [app batch_transcribe flat_map]. rewrite (bind_err _ _ _ _ Hp). reflexivity.
  - cbn [app batch_transcribe flat_map].
    destruct (Hpre q (or_introl eq_refl)) as (tq & vq & Hq).
    rewrite (bind_ok _ _ _ _ Hq), Hq. cbn [fst].
    rewrite IH by (intros; apply Hpre; right; assumption). cbn. rewrite app_assoc. reflexivity.
Qed.

(** X21: once [transcribe] has opened the file for upload, either its last event is the close of that handle, whatever the transport and the server do, or one of the five request-detail prints raised: then the open is its last event, nothing was posted and the handle is left open. *)
Theorem upload_close_or_print_failure w self path fmt language :
  In (EvOpenUpload path) (fst (transcribe w self path fmt language)) ->
  (exists t, fst (transcribe w self path fmt language) = app t [EvCloseUpload] /\
             In (EvOpenUpload path) t) \/
  (exists t msg, fst (transcribe w self path fmt language) = app t [EvOpenUpload path] /\
                 Forall is_probe t /\
                 snd (transcribe w self path fmt language) = Err (PrintFailed msg)).
Proof.
  intros Hin.
  rewrite transcribe_after_validation in *.
  pose proof (validate_method_probes w path) as Hp.
  destruct (validate_audio_file_method w path) as [t [u|e]]; cbn [fst snd] in Hin, Hp |- *.
  2: { exfalso; exact (not_in_probes _ _ Hp (open_not_probe _) Hin). }
  destruct (send_request_trace w self path fmt language) as [E|[[E [msg Em]]|[rq E]]];
    rewrite E in *.
  - rewrite app_nil_r in Hin. exfalso; exact (not_in_probes _ _ Hp (open_not_probe _) Hin).
  - right. exists t, msg. auto.
  - left. exists (app t [EvOpenUpload path; EvPost rq]). split.
    + rewrite <- app_assoc. reflexivity.
    + apply in_or_app. right. left. reflexivity.
Qed.

(** X10: exporting 'text' to a file that opens for writing when the 'text' field is not a string opens (truncates) the file and then fails with a TypeError, writing nothing. *)
Theorem export_text_nonstring_opens w fr d p :
  p <> "" -> w_open_write w p = None ->
  (forall s, dict_get d (pystr "text") (JStr []) <> JStr s) ->
  export_transcription w fr d "text" (Some p) = ([EvOpenWrite p], Err WriteTypeError).
Proof.
  intros Hp Ho Hs. unfold export_transcription, write_file. cbn [String.eqb Ascii.eqb Bool.eqb].
  apply String.eqb_neq in Hp. rewrite Hp, Ho.
  destruct (dict_get d (pystr "text") (JStr [])) eqn:E; try reflexivity.
  exfalso. exact (Hs _ eq_refl).
Qed.

(** X11: a successful export to a non-empty path opens it and writes exactly once, the string it also returns without a path. *)
Theorem export_write_shape w fr d fmt p t v :
  p <> "" -> export_transcription w fr d fmt (Some p) = (t, Ok v) ->
  exists s, v = JStr s /\ t = [EvOpenWrite p; EvWrite p s] /\
            export_transcription w fr d fmt None = ([], Ok v).
Proof.
  intros Hp. apply String.eqb_neq in Hp. unfold export_transcription, write_file, py_json_dumps.
  destruct (String.eqb fmt "json"); [destruct (ints_fit (JObj d))|destruct (String.eqb fmt "text")];
    cbn [bind ret raise]; try discriminate;
    rewrite Hp; destruct (w_open_write w p); cbn [emit bind ret raise app]; try discriminate.
  - intros H; inversion H; subst. eauto.
  - destruct (dict_get d (pystr "text") (JStr [])) eqn:E; cbn [bind emit ret raise app];
      intros H; inversion H; subst. eauto.
Qed.

Ltac in_cases :=
  repeat match goal with
         | H : In _ [] |- _ => destruct H
         | H : In _ (_ :: _) |- _ => destruct H as [<-|H]
         | H : write_path _ = Some _ |- _ => cbn [write_path] in H; try discriminate H; injection H as ->
         end.

Lemma export_transcription_write_path w fr d fmt o ev q :
  In ev (fst (export_transcription w fr d fmt o)) -> write_path ev = Some q -> o = Some q.
Proof.
  intros Hin Hw. unfold export_transcription, write_file, py_json_dumps in Hin.
  destruct (String.eqb fmt "json"); [destruct (ints_fit (JObj d))|destruct (String.eqb fmt "text")];
    cbn [bind ret raise] in Hin;
    destruct o as [p|]; cbn [bind ret raise emit fst app] in Hin; in_cases;
    destruct (String.eqb p ""); cbn [bind ret raise emit fst app] in Hin; in_cases;
    destruct (w_open_write w p); cbn [bind ret raise emit fst app] in Hin; in_cases;
    try (destruct (dict_get d (pystr "text") (JStr [])); cbn [bind ret raise emit fst app] in Hin);
    in_cases; reflexivity.
Qed.

Lemma export_value_write_path w fr v fmt q m ev q' :
  export_value w fr v fmt (Some q) = Some m -> In ev (fst m) -> write_path ev = Some q' -> q' = q.
Proof.
  intros Hm Hin Hw. unfold export_value in Hm.
  destruct v; try (injection Hm as <-;
    pose proof (export_transcription_write_path _ _ _ _ _ _ _ Hin Hw); congruence);
  (destruct (String.eqb fmt "json"); [|destruct (String.eqb fmt "text")]); try discriminate;
  injection Hm as <-; cbn [fst raise] in Hin; in_cases;
  unfold py_json_dumps, write_file in Hin;
  try match type of Hin with context [ints_fit ?x] => destruct (ints_fit x) end;
  try match type of Hin with context [int_repr_fits ?x] => destruct (int_repr_fits x) end;
  cbn [bind ret raise emit fst app] in Hin; in_cases;
  destruct (String.eqb q ""); cbn [bind ret raise emit fst app] in Hin; in_cases;
  destruct (w_open_write w q); cbn [bind ret raise emit fst app] in Hin; in_cases; reflexivity.
Qed.

Lemma export_value_unsupported w fr v fmt o m :
  fmt <> "json" -> fmt <> "text" -> export_value w fr v fmt o = Some m -> fst m = [].
Proof.
  intros Hj Ht Hm. apply String.eqb_neq in Hj, Ht. unfold export_value in Hm.
  destruct v; try (rewrite Hj, Ht in Hm; injection Hm as <-; reflexivity).
  injection Hm as <-. unfold export_transcription. rewrite Hj, Ht. reflexivity.
Qed.

Lemma utils_validate_probes w path mx ml ex :
  Forall is_probe (fst (validate_audio_file w path mx ml ex)).
Proof.
  unfold validate_audio_file, precheck.
  destruct (w_exists w path); cbn [negb bind raise fst]; [|constructor].
  destruct (str_in _ _); cbn [negb bind raise fst]; [|constructor].
  destruct (q_lt _ _); cbn [negb bind raise ret fst app]; [constructor|].
  pose proof (probe_chain_probes w path (py_lower (splitext_ext path))
                (default_details (size_mb (w_getsize w path)))) as H.
  destruct (probe_chain _ _ _ _) as [t [o|e]]; cbn [bind fst] in *; [|exact H].
  destruct o as [d|d]; [|destruct (q_lt (duration d) ml)]; cbn; rewrite app_nil_r; exact H.
Qed.

Lemma transcribe_no_write w self path fmt lang ev :
  In ev (fst (transcribe w self path fmt lang)) -> write_path ev = None.
Proof.
  rewrite transcribe_after_validation.
  pose proof (validate_method_probes w path) as Hp.
  assert (Hpr : forall t, Forall is_probe t -> In ev t -> write_path ev = None).
  { intros t Ht Hin. rewrite Forall_forall in Ht. destruct (Ht _ Hin) as [q ->]. reflexivity. }
  destruct (validate_audio_file_method w path) as [t1 [u|e]]; cbn [fst] in *; intros Hin.
  - apply in_app_or in Hin as [Hin|Hin]; [exact (Hpr _ Hp Hin)|].
    destruct (send_request_trace w self path fmt lang) as [H|[[H _]|[rq H]]]; rewrite H in Hin;
      repeat destruct Hin as [<-|Hin]; try reflexivity; destruct Hin.
  - exact (Hpr _ Hp Hin).
Qed.

Lemma in_lib ev t : In (CLib ev) (lib t) -> In ev t.
Proof.
  unfold lib. intros H. apply in_map_iff in H as [x [Hx Hin]]. injection Hx as ->. exact Hin.
Qed.

Ltac no_lib H :=
  repeat match type of H with
         | In _ [] => destruct H
         | In _ (_ :: _) => destruct H as [H|H]; [discriminate H|]
         | False => destruct H
         | _ = _ \/ _ => destruct H as [H|H]; [discriminate H|]
         end.

Lemma process_file_lib w self isdir fr out fmt lang vo a ev :
  In (CLib ev) (process_file w self isdir fr out fmt lang vo a) ->
  is_probe ev \/
  (vo = false /\
   (write_path ev = None \/
    exists v m, snd (transcribe w self a fmt lang) = Ok v /\
      export_value w fr v fmt (Some (cli_output_file isdir out fmt a)) = Some m /\ In ev (fst m))).
Proof.
  unfold process_file.
  pose proof (utils_validate_probes w a (25 # 1) (1 # 100) None) as Hp.
  destruct (validate_audio_file w a (25 # 1) (1 # 100) None) as [t1 r1]. cbn [fst] in Hp.
  intros Hin. apply in_app_or in Hin as [Hin|Hin].
  { left. apply in_lib in Hin. rewrite Forall_forall in Hp. exact (Hp _ Hin). }
  destruct r1 as [d|e]; [|no_lib Hin].
  apply in_app_or in Hin as [Hin|Hin]; [unfold details_lines in Hin; no_lib Hin|].
  destruct vo; [destruct Hin|]. right. split; [reflexivity|].
  destruct (transcribe w self a fmt lang) as [t2 r2] eqn:E2.
  apply in_app_or in Hin as [Hin|Hin].
  { left. apply in_lib in Hin. apply (transcribe_no_write w self a fmt lang). rewrite E2. exact Hin. }
  destruct r2 as [v|e]; [|no_lib Hin].
  destruct (export_value w fr v fmt (Some (cli_output_file isdir out fmt a))) as [[t3 r3]|] eqn:E3;
    [|no_lib Hin].
  apply in_app_or in Hin as [Hin|Hin].
  - right. exists v, (t3, r3). split; [reflexivity|]. split; [exact E3|]. apply in_lib. exact Hin.
  - destruct r3; no_lib Hin.
Qed.


Lemma cli_lib cw fr files out fmt model lang vo ev :
  In (CLib ev) (fst (transcribe_cli cw fr files out fmt model lang vo)) ->
  exists key self a, cw_env_key cw = Some key /\
    new_transcriber key model DEFAULT_BASE_URL = Ok self /\ In a files /\
    In (CLib ev) (process_file (cw_lib cw) self (cli_isdir cw out files) fr out fmt lang vo a).
Proof.
  unfold transcribe_cli, cli_isdir.
  destruct (cw_env_key cw) as [key|]; [|intros Hx; cbn in Hx; no_lib Hx].
  destruct (String.eqb key ""); [intros Hx; cbn in Hx; no_lib Hx|].
  destruct files as [|f fs]; [intros Hx; cbn in Hx; no_lib Hx|].
  assert (L : forall isdir,
    In (CLib ev) (fst (cli_loop cw fr key (f :: fs) out fmt model lang vo isdir)) ->
    exists self a, new_transcriber key model DEFAULT_BASE_URL = Ok self /\ In a (f :: fs) /\
      In (CLib ev) (process_file (cw_lib cw) self isdir fr out fmt lang vo a)).
  { intros isdir. unfold cli_loop.
    destruct (new_transcriber key model DEFAULT_BASE_URL) as [self|e]; cbn [fst]; intros H;
      [|no_lib H].
    apply in_flat_map in H as [a [Ha Hin]]. eauto. }
  destruct (truthy out) as [p|].
  - destruct (1 <? length (f :: fs))%nat.
    + destruct (cw_makedirs cw p); [|intros Hx; cbn in Hx; no_lib Hx].
      pose proof (L (fun q => String.eqb q p || cw_isdir cw q)) as L'.
      destruct (cli_loop _ _ _ _ _ _ _ _ _ _) as [t r]. cbn [fst] in *. intros [H|H]; [discriminate|].
      destruct (L' H) as (self & a & ?&?&?). eauto 7.
    + intros H. destruct (L _ H) as (self & a & ?&?&?). eauto 7.
  - intros H. destruct (L _ H) as (self & a & ?&?&?). eauto 7.
Qed.

Lemma cli_write_target cw fr files out fmt model lang vo ev q :
  In (CLib ev) (fst (transcribe_cli cw fr files out fmt model lang vo)) -> write_path ev = Some q ->
  exists a, In a files /\ q = cli_output_file (cli_isdir cw out files) out fmt a.
Proof.
  intros Hin Hw. destruct (cli_lib _ _ _ _ _ _ _ _ _ Hin) as (key & self & a & _ & _ & Ha & Hp).
  exists a. split; [exact Ha|].
  destruct (process_file_lib _ _ _ _ _ _ _ _ _ _ Hp) as [[r ->]|[_ [Hn|(v & m & _ & Hm & Hm')]]];
    [discriminate|congruence|].
  exact (export_value_write_path _ _ _ _ _ _ _ _ Hm Hm' Hw).
Qed.

(** X13: with --validate-only the CLI only probes audio files: no upload, request or file write. *)
Theorem cli_validate_only_probes_only cw fr files out fmt model lang ev :
  In (CLib ev) (fst (transcribe_cli cw fr files out fmt model lang true)) -> is_probe ev.
Proof.
  intros Hin. destruct (cli_lib _ _ _ _ _ _ _ _ _ Hin) as (key & self & a & _ & _ & _ & Hp).
  destruct (process_file_lib _ _ _ _ _ _ _ _ _ _ Hp) as [H|[H _]]; [exact H|discriminate].
Qed.

(** X14: with a response format other than 'json' and 'text' (such as the default 'verbose_json') the CLI never writes a transcript file. *)
Theorem cli_unsupported_export_no_write cw fr files out fmt model lang vo ev :
  fmt <> "json" -> fmt <> "text" ->
  In (CLib ev) (fst (transcribe_cli cw fr files out fmt model lang vo)) -> write_path ev = None.
Proof.
  intros Hj Ht Hin. destruct (cli_lib _ _ _ _ _ _ _ _ _ Hin) as (key & self & a & _ & _ & _ & Hp).
  destruct (process_file_lib _ _ _ _ _ _ _ _ _ _ Hp) as [[r ->]|[_ [Hn|(v & m & _ & Hm & Hm')]]];
    [reflexivity|exact Hn|].
  rewrite (export_value_unsupported _ _ _ _ _ _ Hj Ht Hm) in Hm'. destruct Hm'.
Qed.

(** X15: without -o, every file the CLI writes is '<stem>_transcript.<format>' in the working directory, for the stem of one of its audio files. *)
Theorem cli_default_output_names cw fr files out fmt model lang vo ev q :
  truthy out = None ->
  In (CLib ev) (fst (transcribe_cli cw fr files out fmt model lang vo)) -> write_path ev = Some q ->
  exists a, In a files /\ q = splitext_root (basename a) ++ "_transcript." ++ fmt.
Proof.
  intros Ho Hin Hw. destruct (cli_write_target _ _ _ _ _ _ _ _ _ _ Hin Hw) as (a & Ha & ->).
  exists a. split; [exact Ha|]. unfold cli_output_file. rewrite Ho. reflexivity.
Qed.

(** X16: with -o p and several files, the CLI first creates p and writes every transcript into p as '<stem>_transcript.<format>'. *)
Theorem cli_several_files_into_dir cw fr files out fmt model lang vo key p :
  cw_env_key cw = Some key -> key <> "" -> truthy out = Some p -> (1 < length files)%nat ->
  cw_makedirs cw p = true ->
  hd_error (fst (transcribe_cli cw fr files out fmt model lang vo)) = Some (CMakedirs p) /\
  (forall ev q, In (CLib ev) (fst (transcribe_cli cw fr files out fmt model lang vo)) ->
   write_path ev = Some q ->
   exists a, In a files /\ q = path_join p (splitext_root (basename a) ++ "_transcript." ++ fmt)).
Proof.
  intros Hkey Hk Hout Hlen Hmk. split.
  - unfold transcribe_cli. rewrite Hkey. apply String.eqb_neq in Hk. rewrite Hk.
    destruct files as [|f fs]; [cbn in Hlen; lia|].
    rewrite Hout. apply Nat.ltb_lt in Hlen. rewrite Hlen, Hmk.
    destruct (cli_loop _ _ _ _ _ _ _ _ _ _). reflexivity.
  - intros ev q Hin Hw. destruct (cli_write_target _ _ _ _ _ _ _ _ _ _ Hin Hw) as (a & Ha & ->).
    exists a. split; [exact Ha|]. unfold cli_output_file, cli_isdir. rewrite Hout.
    apply Nat.ltb_lt in Hlen. rewrite Hlen, String.eqb_refl. reflexivity.
Qed.

(** X17: with -o p, one file and p not a directory, the CLI writes only to p. *)
Theorem cli_single_file_to_path cw fr a out fmt model lang vo p ev q :
  truthy out = Some p -> cw_isdir cw p = false ->
  In (CLib ev) (fst (transcribe_cli cw fr [a] out fmt model lang vo)) -> write_path ev = Some q ->
  q = p.
Proof.
  intros Hout Hd Hin Hw. destruct (cli_write_target _ _ _ _ _ _ _ _ _ _ Hin Hw) as (b & _ & ->).
  unfold cli_output_file, cli_isdir. rewrite Hout. cbn [length Nat.ltb Nat.leb]. rewrite Hd. reflexivity.
Qed.

Lemma process_file_reports w self isdir fr out fmt lang a :
  (exists msg, In (error_processing a msg) (process_file w self isdir fr out fmt lang false a)) \/
  In (CEcho false [PLit "Transcription saved to "; PLit (cli_output_file isdir out fmt a)])
     (process_file w self isdir fr out fmt lang false a).
Proof.
  unfold process_file.
  destruct (validate_audio_file w a (25 # 1) (1 # 100) None) as [t1 [d|e]].
  2: { left. eexists. apply in_or_app. right. left. reflexivity. }
  destruct (transcribe w self a fmt lang) as [t2 [v|e]].
  2: { left. eexists. apply in_or_app. right. apply in_or_app. right. apply in_or_app. right.
       left. reflexivity. }
  destruct (export_value w fr v fmt (Some (cli_output_file isdir out fmt a))) as [[t3 [u|e]]|].
  - right. apply in_or_app. right. apply in_or_app. right. apply in_or_app. right.
    apply in_or_app. right. left. reflexivity.
  - left. eexists. apply in_or_app. right. apply in_or_app. right. apply in_or_app. right.
    apply in_or_app. right. left. reflexivity.
  - left. eexists. apply in_or_app. right. apply in_or_app. right. apply in_or_app. right.
    left. reflexivity.
Qed.

Lemma cli_returned_trace cw fr files out fmt model lang vo :
  snd (transcribe_cli cw fr files out fmt model lang vo) = CliReturned ->
  exists self isdir pre, fst (transcribe_cli cw fr files out fmt model lang vo) =
    app pre (flat_map (process_file (cw_lib cw) self isdir fr out fmt lang vo) files).
Proof.
  unfold transcribe_cli.
  destruct (cw_env_key cw) as [key|]; [|discriminate].
  destruct (String.eqb key ""); [discriminate|].
  destruct files as [|f fs]; [discriminate|].
  assert (L : forall isdir, snd (cli_loop cw fr key (f :: fs) out fmt model lang vo isdir) = CliReturned ->
    exists self, fst (cli_loop cw fr key (f :: fs) out fmt model lang vo isdir) =
      flat_map (process_file (cw_lib cw) self isdir fr out fmt lang vo) (f :: fs)).
  { intros isdir. unfold cli_loop.
    destruct (new_transcriber key model DEFAULT_BASE_URL) as [self|e]; [|discriminate].
    intros _. exists self. reflexivity. }
  destruct (truthy out) as [p|].
  - destruct (1 <? length (f :: fs))%nat.
    + destruct (cw_makedirs cw p); [|discriminate].
      pose proof (L (fun q => String.eqb q p || cw_isdir cw q)) as L'.
      destruct (cli_loop _ _ _ _ _ _ _ _ _ _) as [t r]. cbn [fst snd] in *. intros H.
      destruct (L' H) as [self ->]. exists self, (fun q => String.eqb q p || cw_isdir cw q), [CMakedirs p].
      reflexivity.
    + intros H. destruct (L _ H) as [self E]. exists self, (cw_isdir cw), []. exact E.
  - intros H. destruct (L _ H) as [self E]. exists self, (cw_isdir cw), []. exact E.
Qed.

(** X18: when the CLI runs to the end without --validate-only, every audio file gets an 'Error processing' line or a 'Transcription saved to' line: an error on one file does not stop the others. *)
Theorem cli_every_file_reported cw fr files out fmt model lang a :
  snd (transcribe_cli cw fr files out fmt model lang false) = CliReturned -> In a files ->
  (exists msg, In (error_processing a msg) (fst (transcribe_cli cw fr files out fmt model lang false))) \/
  (exists isdir, In (CEcho false [PLit "Transcription saved to "; PLit (cli_output_file isdir out fmt a)])
                    (fst (transcribe_cli cw fr files out fmt model lang false))).
Proof.
  intros Hr Ha. destruct (cli_returned_trace _ _ _ _ _ _ _ _ Hr) as (self & isdir & pre & ->).
  assert (Hsub : forall x, In x (process_file (cw_lib cw) self isdir fr out fmt lang false a) ->
                      In x (app pre (flat_map (process_file (cw_lib cw) self isdir fr out fmt lang false) files))).
  { intros x Hx. apply in_or_app. right. apply in_flat_map. eauto. }
  destruct (process_file_reports (cw_lib cw) self isdir fr out fmt lang a) as [[msg H]|H].
  - left. eauto.
  - right. eauto.
Qed.

Lemma rfind_aux_range c s i acc :
  rfind_aux c s i acc = acc \/ i <= rfind_aux c s i acc < i + Z.of_nat (String.length s).
Proof.
  revert i acc. induction s as [|a s IH]; intros i acc; cbn [rfind_aux String.length]; [left; reflexivity|].
  destruct (IH (i + 1) (if Ascii.eqb a c then i else acc)) as [H|H].
  - rewrite H. destruct (Ascii.eqb a c); [right; lia|left; reflexivity].
  - right. lia.
Qed.

Lemma rfind_range c s : -1 <= rfind c s < Z.of_nat (String.length s).
Proof.
  unfold rfind. destruct (rfind_aux_range c s 0 (-1)) as [H|H]; [rewrite H|]; lia.
Qed.

Lemma substring_split (s : string) n :
  (n <= String.length s)%nat ->
  substring 0 n s ++ substring n (String.length s - n) s = s.
Proof.
  revert n. induction s as [|a s IH]; intros n Hn.
  - cbn in Hn. assert (n = 0%nat) by lia. subst. reflexivity.
  - destruct n as [|n].
    + cbn [substring String.append]. rewrite Nat.sub_0_r. exact (substring_all (String a s)).
    + cbn [substring String.append String.length]. cbn [String.length] in Hn.
      rewrite Nat.sub_succ. f_equal. apply IH. lia.
Qed.

(** X19: [os.path.splitext] splits a path without loss: root and extension concatenate back to the path. *)
Theorem splitext_roundtrip p : splitext_root p ++ splitext_ext p = p.
Proof.
  unfold splitext_root, splitext_ext.
  pose proof (rfind_range "/"%char p). pose proof (rfind_range "."%char p).
  destruct (rfind "/"%char p <? rfind "."%char p) eqn:E; [|apply str_app_nil_r].
  apply Z.ltb_lt in E.
  destruct (existsb _ _); [|apply str_app_nil_r].
  apply substring_split. lia.
Qed.


Lemma has_char_app c a b : has_char c (a ++ b) = has_char c a || has_char c b.
Proof. induction a as [|x a IH]; cbn; [reflexivity|]. rewrite IH, orb_assoc. reflexivity. Qed.

Lemma has_char_substring c s i n : has_char c s = false -> has_char c (substring i n s) = false.
Proof.
  revert i n. induction s as [|a s IH]; intros i n H; [destruct i, n; reflexivity|].
  cbn in H. apply orb_false_iff in H as [Ha Hs].
  destruct i as [|i]; [destruct n as [|n]|]; cbn; auto. rewrite Ha. cbn. apply IH. exact Hs.
Qed.

Lemma rfind_aux_none c s i acc : has_char c s = false -> rfind_aux c s i acc = acc.
Proof.
  revert i acc. induction s as [|a s IH]; intros i acc H; [reflexivity|].
  cbn in H. apply orb_false_iff in H as [Ha Hs]. cbn. rewrite Ha. apply IH, Hs.
Qed.

Lemma rfind_aux_app c a b i acc :
  rfind_aux c (a ++ b) i acc = rfind_aux c b (i + Z.of_nat (String.length a)) (rfind_aux c a i acc).
Proof.
  revert i acc. induction a as [|x a IH]; intros i acc; cbn [String.append rfind_aux String.length].
  - rewrite Z.add_0_r. reflexivity.
  - rewrite IH. f_equal. lia.
Qed.

Lemma rfind_aux_spec c s i acc :
  (rfind_aux c s i acc = acc /\ has_char c s = false) \/
  (exists x y, s = x ++ String c y /\ has_char c y = false /\
               rfind_aux c s i acc = i + Z.of_nat (String.length x)).
Proof.
  revert i acc. induction s as [|a s IH]; intros i acc; [left; auto|].
  cbn [rfind_aux has_char].
  destruct (IH (i + 1) (if Ascii.eqb a c then i else acc)) as [[H1 H2]|(x & y & -> & Hy & H)].
  - rewrite H1, H2. destruct (Ascii.eqb a c) eqn:E.
    + right. apply Ascii.eqb_eq in E. subst. exists "", s. cbn. rewrite Z.add_0_r. auto.
    + left. auto.
  - right. exists (String a x), y. rewrite H. cbn [String.append String.length]. split; [reflexivity|].
    split; [exact Hy|lia].
Qed.

Lemma substring_app_r x z k m :
  substring (String.length x + k) m (x ++ z) = substring k m z.
Proof. induction x as [|a x IH]; cbn; auto. Qed.

Lemma basename_after_slash x n :
  has_char "/"%char n = false -> basename (x ++ String "/" n) = n.
Proof.
  intros Hn. unfold basename, rfind.
  rewrite rfind_aux_app. cbn [rfind_aux Ascii.eqb Bool.eqb]. rewrite rfind_aux_none by exact Hn.
  replace (Z.to_nat (0 + Z.of_nat (String.length x) + 1)) with (String.length x + 1)%nat by lia.
  rewrite str_length_app. cbn [String.length].
  replace (String.length x + S (String.length n) - (String.length x + 1))%nat with (String.length n) by lia.
  rewrite substring_app_r. cbn [substring]. apply substring_all.
Qed.

Lemma basename_no_slash n : has_char "/"%char n = false -> basename n = n.
Proof.
  intros Hn. unfold basename, rfind. rewrite rfind_aux_none by exact Hn.
  cbn [Z.add Z.to_nat]. rewrite Nat.sub_0_r. apply substring_all.
Qed.

Lemma basename_has_no_slash s : has_char "/"%char (basename s) = false.
Proof.
  unfold basename, rfind.
  destruct (rfind_aux_spec "/"%char s 0 (-1)) as [[-> H]|(x & y & Hs & Hy & ->)].
  - apply has_char_substring, H.
  - rewrite Hs. rewrite <- Hs at 1. rewrite Hs.
    replace (Z.to_nat (0 + Z.of_nat (String.length x) + 1)) with (String.length x + 1)%nat by lia.
    rewrite substring_app_r. cbn [substring]. apply has_char_substring. exact Hy.
Qed.

Lemma ends_with_slash_shape p : ends_with_slash p = true -> exists x, p = x ++ "/".
Proof.
  unfold ends_with_slash, rfind. intros H. apply andb_true_iff in H as [H1 H2].
  apply Nat.eqb_eq in H2. apply Z.leb_le in H1.
  destruct (rfind_aux_spec "/"%char p 0 (-1)) as [[E _]|(x & y & Hp & Hy & E)]; rewrite E in *; [lia|].
  exists x. subst p. rewrite str_length_app in H2. cbn [String.length] in H2.
  destruct y; [reflexivity|cbn [String.length] in H2; lia].
Qed.

Lemma starts_with_slash_false n : has_char "/"%char n = false -> starts_with "/" n = false.
Proof.
  intros H. destruct n as [|a n]; [reflexivity|]. cbn in H. apply orb_false_iff in H as [Ha _].
  unfold starts_with. cbn [String.prefix].
  destruct (Ascii.ascii_dec "/"%char a) as [<-|]; [discriminate Ha|reflexivity].
Qed.

Lemma basename_path_join p n : has_char "/"%char n = false -> basename (path_join p n) = n.
Proof.
  intros Hn. unfold path_join. rewrite (starts_with_slash_false _ Hn).
  destruct (String.eqb p "") eqn:E.
  - apply String.eqb_eq in E. subst. apply basename_no_slash, Hn.
  - destruct (ends_with_slash p) eqn:Es; cbn [orb].
    + destruct (ends_with_slash_shape _ Es) as [x ->]. rewrite str_app_assoc. apply basename_after_slash, Hn.
    + apply basename_after_slash, Hn.
Qed.

(** X20: in directory mode the transcript's file name, as [os.path.basename] sees it, is exactly '<stem>_transcript.<format>' (for a format without '/'). *)
Theorem dir_output_basename p a fmt :
  has_char "/"%char fmt = false ->
  basename (path_join p (splitext_root (basename a) ++ "_transcript." ++ fmt)) =
  splitext_root (basename a) ++ "_transcript." ++ fmt.
Proof.
  intros Hf. apply basename_path_join.
  rewrite !has_char_app, Hf. cbn [has_char Ascii.eqb Bool.eqb orb].
  rewrite orb_false_r.
  unfold splitext_root. destruct (_ <? _); [destruct (existsb _ _)|];
    first [apply basename_has_no_slash | apply has_char_substring, basename_has_no_slash].
Qed.

(** ** Witnesses *)

Lemma transcribe_posts_only_after_validation_witness :
  In (EvPost clip_request)
     (fst (transcribe sample_world sample_transcriber "clip.wav" "json" None)) /\
  w_exists sample_world "clip.wav" = true.
Proof.
  assert (H : In (EvPost clip_request)
                 (fst (transcribe sample_world sample_transcriber "clip.wav" "json" None)))
    by (vm_compute; right; right; left; reflexivity).
  split; [exact H|].
  exact (proj1 (transcribe_posts_only_after_validation _ _ _ _ _ _ H)).
Defined.

Lemma size_check_precedes_probing_witness :
  w_exists sample_world "talk.mp3" = true /\
  str_in (py_lower (splitext_ext "talk.mp3")) DEFAULT_EXTENSIONS = true /\
  validate_audio_file sample_world "talk.mp3" (25 # 1) (1 # 100) None
  = ([], Err (FileTooLarge (25 # 1) (size_mb (w_getsize sample_world "talk.mp3")))).
Proof.
  assert (H1 : w_exists sample_world "talk.mp3" = true) by (vm_compute; reflexivity).
  assert (H2 : str_in (py_lower (splitext_ext "talk.mp3")) DEFAULT_EXTENSIONS = true)
    by (vm_compute; reflexivity).
  split; [exact H1|split; [exact H2|]].
  apply (proj1 (size_check_precedes_probing sample_world "talk.mp3" H1 H2)).
  vm_compute; reflexivity.
Defined.

Lemma unsupported_extension_rejected_witness :
  w_exists sample_world "notes.txt" = true /\
  str_in (py_lower (splitext_ext "notes.txt")) DEFAULT_EXTENSIONS = false /\
  transcribe sample_world sample_transcriber "notes.txt" "json" None
  = ([], Err (UnsupportedExtension ".txt" SUPPORTED_EXTENSIONS)).
Proof.
  assert (H1 : w_exists sample_world "notes.txt" = true) by (vm_compute; reflexivity).
  assert (H2 : str_in (py_lower (splitext_ext "notes.txt")) DEFAULT_EXTENSIONS = false)
    by (vm_compute; reflexivity).
  split; [exact H1|split; [exact H2|]].
  exact (proj2 (proj2 (unsupported_extension_rejected sample_world "notes.txt" H1 H2))
           sample_transcriber "json" None).
Defined.

Lemma unsupported_format_no_network_witness :
  str_in "srt" SUPPORTED_FORMATS = false /\
  snd (transcribe sample_world sample_transcriber "clip.wav" "srt" None)
  = match snd (validate_audio_file_method sample_world "clip.wav") with
    | Ok _ => Err (UnsupportedFormat "srt")
    | Err e => Err e
    end.
Proof.
  assert (H : str_in "srt" SUPPORTED_FORMATS = false) by (vm_compute; reflexivity).
  split; [exact H|].
  exact (proj2 (proj2 (unsupported_format_no_network sample_world sample_transcriber
                         "clip.wav" "srt" None H))).
Defined.

Lemma export_text_field_witness :
  NoDup (map fst sample_result) /\
  export_transcription sample_world (fun _ => "0.0") sample_result "text" None
  = ([], Ok (JStr (pystr "hello"))).
Proof.
  assert (H : NoDup (map fst sample_result)).
  { vm_compute. constructor; [intros [Heq|[]]; discriminate|].
    constructor; [intros []|constructor]. }
  split; [exact H|].
  apply (proj1 (export_text_field sample_world (fun _ => "0.0") sample_result H)).
  left; reflexivity.
Defined.

Lemma export_unsupported_format_writes_nothing_witness :
  "srt" <> "json" /\ "srt" <> "text" /\
  export_transcription sample_world (fun _ => "0.0") sample_result "srt" (Some "out.srt")
  = ([], Err (UnsupportedExportFormat "srt")).
Proof.
  assert (H1 : "srt" <> "json") by discriminate.
  assert (H2 : "srt" <> "text") by discriminate.
  split; [exact H1|split; [exact H2|]].
  exact (export_unsupported_format_writes_nothing _ _ _ _ _ H1 H2).
Defined.


Ltac find_in := first [left; reflexivity | right; find_in].

Lemma export_json_is_ascii_witness :
  (forall b, is_ascii_string (sample_float_repr b) = true) /\
  export_transcription sample_world sample_float_repr sample_doc "json" None
  = ([], Ok (JStr (pystr (json_dumps sample_float_repr (JObj sample_doc))))) /\
  forallb (fun c => c <? 128) (pystr (json_dumps sample_float_repr (JObj sample_doc))) = true.
Proof.
  assert (Hf : forall b, is_ascii_string (sample_float_repr b) = true).
  { intros b. unfold sample_float_repr. destruct (b =? 4617315517961601024); reflexivity. }
  assert (E : export_transcription sample_world sample_float_repr sample_doc "json" None
              = ([], Ok (JStr (pystr (json_dumps sample_float_repr (JObj sample_doc))))))
    by (vm_compute; reflexivity).
  split; [exact Hf|split; [exact E|]].
  exact (export_json_is_ascii _ _ _ _ _ _ Hf E).
Defined.

Lemma precheck_size_limit_witness :
  0 < 25 /\ w_exists sample_world "talk.mp3" = true /\
  str_in (py_lower (splitext_ext "talk.mp3")) DEFAULT_EXTENSIONS = true /\
  snd (precheck sample_world "talk.mp3" (25 # 1) DEFAULT_EXTENSIONS)
  = Err (FileTooLarge (25 # 1) (size_mb (w_getsize sample_world "talk.mp3"))).
Proof.
  assert (H1 : 0 < 25) by lia.
  assert (H2 : w_exists sample_world "talk.mp3" = true) by (vm_compute; reflexivity).
  assert (H3 : str_in (py_lower (splitext_ext "talk.mp3")) DEFAULT_EXTENSIONS = true)
    by (vm_compute; reflexivity).
  split; [exact H1|split; [exact H2|split; [exact H3|]]].
  rewrite (precheck_size_limit sample_world "talk.mp3" 25 DEFAULT_EXTENSIONS H1 H2 H3).
  vm_compute. reflexivity.
Defined.

Lemma probes_keep_file_size_witness :
  exists t d, get_audio_details sample_world "clip.wav" = (t, Ok d) /\
              file_size_mb d = size_mb (w_getsize sample_world "clip.wav").
Proof.
  assert (E : exists t d, get_audio_details sample_world "clip.wav" = (t, Ok d))
    by (vm_compute; eauto).
  destruct E as (t & d & E). exists t, d. split; [exact E|].
  exact (proj1 (probes_keep_file_size sample_world "clip.wav") t d E).
Defined.

Lemma transcribe_ok_means_200_witness :
  transcribe sample_world sample_transcriber "clip.wav" "json" None
  = (fst (transcribe sample_world sample_transcriber "clip.wav" "json" None), Ok sample_response) /\
  exists rq text, In (EvPost rq) (fst (transcribe sample_world sample_transcriber "clip.wav" "json" None)) /\
                  w_post sample_world rq = PostResponse 200 text (Some sample_response).
Proof.
  assert (E : transcribe sample_world sample_transcriber "clip.wav" "json" None
    = (fst (transcribe sample_world sample_transcriber "clip.wav" "json" None), Ok sample_response))
    by (vm_compute; reflexivity).
  split; [exact E|]. exact (transcribe_ok_means_200 _ _ _ _ _ _ _ E).
Defined.

Lemma transcribe_request_fields_witness :
  In (EvPost clip_request) (fst (transcribe sample_world sample_transcriber "clip.wav" "json" None)) /\
  rq_filename clip_request = basename "clip.wav".
Proof.
  assert (E := surjective_pairing (transcribe sample_world sample_transcriber "clip.wav" "json" None)).
  assert (H : In (EvPost clip_request)
                 (fst (transcribe sample_world sample_transcriber "clip.wav" "json" None)))
    by (vm_compute; find_in).
  split; [exact H|].
  exact (proj1 (proj2 (proj2 (proj2 (transcribe_request_fields _ _ _ _ _ _ _ _ E H))))).
Defined.

Lemma batch_transcribe_ok_witness :
  batch_transcribe sample_world sample_transcriber ["clip.wav"; "clip.wav"] "json"
  = (fst (batch_transcribe sample_world sample_transcriber ["clip.wav"; "clip.wav"] "json"),
     Ok [sample_response; sample_response]) /\
  post_count (fst (batch_transcribe sample_world sample_transcriber ["clip.wav"; "clip.wav"] "json"))
  = 2%nat.
Proof.
  assert (E : batch_transcribe sample_world sample_transcriber ["clip.wav"; "clip.wav"] "json"
    = (fst (batch_transcribe sample_world sample_transcriber ["clip.wav"; "clip.wav"] "json"),
       Ok [sample_response; sample_response])) by (vm_compute; reflexivity).
  split; [exact E|]. exact (proj1 (proj2 (batch_transcribe_ok _ _ _ _ _ _ E))).
Defined.

Lemma batch_transcribe_first_error_witness :
  transcribe sample_world sample_transcriber "missing.mp3" "json" None
  = ([], Err (FileNotFound "missing.mp3")) /\
  batch_transcribe sample_world sample_transcriber ["clip.wav"; "missing.mp3"; "clip.wav"] "json"
  = (fst (transcribe sample_world sample_transcriber "clip.wav" "json" None),
     Err (FileNotFound "missing.mp3")).
Proof.
  assert (Hp : transcribe sample_world sample_transcriber "missing.mp3" "json" None
               = ([], Err (FileNotFound "missing.mp3"))) by (vm_compute; reflexivity).
  assert (Hpre : forall q, In q ["clip.wav"] -> exists tq vq,
            transcribe sample_world sample_transcriber q "json" None = (tq, Ok vq)).
  { intros q [<-|[]]. vm_compute. eauto. }
  split; [exact Hp|].
  pose proof (batch_transcribe_first_error sample_world sample_transcriber ["clip.wav"] "missing.mp3"
             ["clip.wav"] "json" [] (FileNotFound "missing.mp3") Hpre Hp) as B.
  cbn [app flat_map] in B. rewrite !app_nil_r in B. exact B.
Defined.

Lemma upload_close_or_print_failure_witness :
  In (EvOpenUpload "clip.wav")
     (fst (transcribe sample_world sample_transcriber "clip.wav" "json" None)) /\
  ((exists t, fst (transcribe sample_world sample_transcriber "clip.wav" "json" None)
              = app t [EvCloseUpload] /\ In (EvOpenUpload "clip.wav") t) \/
   (exists t msg, fst (transcribe sample_world sample_transcriber "clip.wav" "json" None)
                  = app t [EvOpenUpload "clip.wav"] /\ Forall is_probe t /\
                  snd (transcribe sample_world sample_transcriber "clip.wav" "json" None)
                  = Err (PrintFailed msg))).
Proof.
  assert (H : In (EvOpenUpload "clip.wav")
                 (fst (transcribe sample_world sample_transcriber "clip.wav" "json" None)))
    by (vm_compute; right; left; reflexivity).
  split; [exact H|].
  exact (upload_close_or_print_failure _ _ _ _ _ H).
Defined.

Lemma export_text_nonstring_opens_witness :
  "out.txt" <> "" /\ w_open_write sample_world "out.txt" = None /\
  (forall s, dict_get [(pystr "text", JNull)] (pystr "text") (JStr []) <> JStr s) /\
  export_transcription sample_world sample_float_repr [(pystr "text", JNull)] "text" (Some "out.txt")
  = ([EvOpenWrite "out.txt"], Err WriteTypeError).
Proof.
  assert (H1 : "out.txt" <> "") by discriminate.
  assert (Ho : w_open_write sample_world "out.txt" = None) by reflexivity.
  assert (H2 : forall s, dict_get [(pystr "text", JNull)] (pystr "text") (JStr []) <> JStr s)
    by (intros s H; vm_compute in H; discriminate H).
  split; [exact H1|split; [exact Ho|split; [exact H2|]]].
  exact (export_text_nonstring_opens _ _ _ _ H1 Ho H2).
Defined.

Lemma export_write_shape_witness :
  "out.txt" <> "" /\
  export_transcription sample_world sample_float_repr sample_result "text" (Some "out.txt")
  = ([EvOpenWrite "out.txt"; EvWrite "out.txt" (pystr "hello")], Ok (JStr (pystr "hello"))) /\
  export_transcription sample_world sample_float_repr sample_result "text" None
  = ([], Ok (JStr (pystr "hello"))).
Proof.
  assert (H1 : "out.txt" <> "") by discriminate.
  assert (E : export_transcription sample_world sample_float_repr sample_result "text" (Some "out.txt")
    = ([EvOpenWrite "out.txt"; EvWrite "out.txt" (pystr "hello")], Ok (JStr (pystr "hello"))))
    by (vm_compute; reflexivity).
  split; [exact H1|split; [exact E|]].
  destruct (export_write_shape _ _ _ _ _ _ _ H1 E) as (s & _ & _ & H). exact H.
Defined.

Lemma cli_validate_only_probes_only_witness :
  In (CLib (EvProbe ProbeSoundfile))
     (fst (transcribe_cli sample_cli_world sample_float_repr ["clip.wav"] None "json"
             "whisper-large-v3" None true)) /\
  is_probe (EvProbe ProbeSoundfile).
Proof.
  assert (H : In (CLib (EvProbe ProbeSoundfile))
     (fst (transcribe_cli sample_cli_world sample_float_repr ["clip.wav"] None "json"
             "whisper-large-v3" None true))) by (vm_compute; find_in).
  split; [exact H|]. exact (cli_validate_only_probes_only _ _ _ _ _ _ _ _ H).
Defined.

Lemma cli_unsupported_export_no_write_witness :
  "verbose_json" <> "json" /\ "verbose_json" <> "text" /\
  In (CLib (EvPost {| rq_url := DEFAULT_BASE_URL; rq_authorization := "Bearer gsk_test_key_0000";
                      rq_payload := [("model", "whisper-large-v3"); ("response_format", "verbose_json")];
                      rq_filename := "clip.wav"; rq_content_type := "audio/mpeg" |}))
     (fst (transcribe_cli sample_cli_world sample_float_repr ["clip.wav"] (Some "out") "verbose_json"
             "whisper-large-v3" None false)) /\
  write_path (EvPost {| rq_url := DEFAULT_BASE_URL; rq_authorization := "Bearer gsk_test_key_0000";
                      rq_payload := [("model", "whisper-large-v3"); ("response_format", "verbose_json")];
                      rq_filename := "clip.wav"; rq_content_type := "audio/mpeg" |}) = None.
Proof.
  assert (H1 : "verbose_json" <> "json") by discriminate.
  assert (H2 : "verbose_json" <> "text") by discriminate.
  assert (H : In (CLib (EvPost {| rq_url := DEFAULT_BASE_URL; rq_authorization := "Bearer gsk_test_key_0000";
                      rq_payload := [("model", "whisper-large-v3"); ("response_format", "verbose_json")];
                      rq_filename := "clip.wav"; rq_content_type := "audio/mpeg" |}))
     (fst (transcribe_cli sample_cli_world sample_float_repr ["clip.wav"] (Some "out") "verbose_json"
             "whisper-large-v3" None false))) by (vm_compute; find_in).
  split; [exact H1|split; [exact H2|split; [exact H|]]].
  exact (cli_unsupported_export_no_write _ _ _ _ _ _ _ _ _ H1 H2 H).
Defined.

Lemma cli_default_output_names_witness :
  truthy None = None /\
  In (CLib (EvOpenWrite "clip_transcript.json"))
     (fst (transcribe_cli sample_cli_world sample_float_repr ["clip.wav"] None "json"
             "whisper-large-v3" None false)) /\
  exists a, In a ["clip.wav"] /\
            "clip_transcript.json" = splitext_root (basename a) ++ "_transcript." ++ "json".
Proof.
  assert (H0 : truthy None = None) by reflexivity.
  assert (H : In (CLib (EvOpenWrite "clip_transcript.json"))
     (fst (transcribe_cli sample_cli_world sample_float_repr ["clip.wav"] None "json"
             "whisper-large-v3" None false))) by (vm_compute; find_in).
  split; [exact H0|split; [exact H|]].
  exact (cli_default_output_names _ _ _ _ _ _ _ _ _ _ H0 H eq_refl).
Defined.

Lemma cli_several_files_into_dir_witness :
  cw_env_key sample_cli_world = Some "gsk_test_key_0000" /\ "gsk_test_key_0000" <> "" /\
  truthy (Some "out") = Some "out" /\ (1 < length ["clip.wav"; "clip.wav"])%nat /\
  cw_makedirs sample_cli_world "out" = true /\
  hd_error (fst (transcribe_cli sample_cli_world sample_float_repr ["clip.wav"; "clip.wav"] (Some "out")
                   "json" "whisper-large-v3" None false)) = Some (CMakedirs "out").
Proof.
  assert (H1 : cw_env_key sample_cli_world = Some "gsk_test_key_0000") by reflexivity.
  assert (H2 : "gsk_test_key_0000" <> "") by discriminate.
  assert (H3 : truthy (Some "out") = Some "out") by reflexivity.
  assert (H4 : (1 < length ["clip.wav"; "clip.wav"])%nat) by (cbn; lia).
  assert (H5 : cw_makedirs sample_cli_world "out" = true) by reflexivity.
  split; [exact H1|split; [exact H2|split; [exact H3|split; [exact H4|split; [exact H5|]]]]].
  exact (proj1 (cli_several_files_into_dir sample_cli_world sample_float_repr ["clip.wav"; "clip.wav"]
                  (Some "out") "json" "whisper-large-v3" None false _ _ H1 H2 H3 H4 H5)).
Defined.

Lemma cli_single_file_to_path_witness :
  truthy (Some "result.json") = Some "result.json" /\
  cw_isdir sample_cli_world "result.json" = false /\
  In (CLib (EvOpenWrite "result.json"))
     (fst (transcribe_cli sample_cli_world sample_float_repr ["clip.wav"] (Some "result.json") "json"
             "whisper-large-v3" None false)) /\
  write_path (EvOpenWrite "result.json") = Some "result.json" /\
  "result.json" = "result.json".
Proof.
  assert (H1 : truthy (Some "result.json") = Some "result.json") by reflexivity.
  assert (H2 : cw_isdir sample_cli_world "result.json" = false) by reflexivity.
  assert (H : In (CLib (EvOpenWrite "result.json"))
     (fst (transcribe_cli sample_cli_world sample_float_repr ["clip.wav"] (Some "result.json") "json"
             "whisper-large-v3" None false))) by (vm_compute; find_in).
  split; [exact H1|split; [exact H2|split; [exact H|split; [reflexivity|]]]].
  exact (cli_single_file_to_path _ _ _ _ _ _ _ _ _ _ "result.json" H1 H2 H eq_refl).
Defined.

Lemma cli_every_file_reported_witness :
  snd (transcribe_cli sample_cli_world sample_float_repr ["notes.txt"; "clip.wav"] None "json"
         "whisper-large-v3" None false) = CliReturned /\
  In "notes.txt" ["notes.txt"; "clip.wav"] /\
  ((exists msg, In (error_processing "notes.txt" msg)
       (fst (transcribe_cli sample_cli_world sample_float_repr ["notes.txt"; "clip.wav"] None "json"
              "whisper-large-v3" None false))) \/
   (exists isdir, In (CEcho false [PLit "Transcription saved to ";
                                   PLit (cli_output_file isdir None "json" "notes.txt")])
       (fst (transcribe_cli sample_cli_world sample_float_repr ["notes.txt"; "clip.wav"] None "json"
              "whisper-large-v3" None false)))).
Proof.
  assert (H1 : snd (transcribe_cli sample_cli_world sample_float_repr ["notes.txt"; "clip.wav"] None "json"
         "whisper-large-v3" None false) = CliReturned) by (vm_compute; reflexivity).
  assert (H2 : In "notes.txt" ["notes.txt"; "clip.wav"]) by (left; reflexivity).
  split; [exact H1|split; [exact H2|]].
  exact (cli_every_file_reported _ _ _ _ _ _ _ _ H1 H2).
Defined.

Lemma dir_output_basename_witness :
  has_char "/"%char "json" = false /\
  basename (path_join "out" (splitext_root (basename "rec/clip.wav") ++ "_transcript." ++ "json"))
  = "clip_transcript.json".
Proof.
  assert (H : has_char "/"%char "json" = false) by reflexivity.
  split; [exact H|].
  rewrite (dir_output_basename "out" "rec/clip.wav" "json" H). vm_compute. reflexivity.
Defined.
